(** * The 1nP response pipeline: a shallow embedding and its properties

    The development follows [hotfix-1np-responses-20210317.py]: the
    per-record loop of [main] (classification, common fields, dispatch to
    the activity normalizers, submission counter, output groups) and the
    normalizers themselves ([_process_timestamps], [_process_intake],
    [_process_mood_questionnaires], [_process_task_stroop],
    [_process_task_tapping], [_process_healthdata]).

    Python values decoded from JSON are the type [json]; a [dict] that the
    script fills in place is an association list in insertion order, and
    the script's exceptions are explicit results.  Reading the input file
    and writing the CSV files stay outside. *)

From Stdlib Require Import ZArith QArith List Ascii String Bool Lia.
From stdpp Require Import base option list strings gmap.

Import ListNotations.
Local Open Scope string_scope.
Local Open Scope list_scope.
Local Open Scope Z_scope.

(** ** Text *)

Module Text.

Definition chars (s : string) : list ascii := list_ascii_of_string s.
Definition text (l : list ascii) : string := string_of_list_ascii l.

Definition digit_char (d : Z) : ascii := ascii_of_nat (48 + Z.to_nat d).

Fixpoint digits_go (fuel : nat) (n : Z) (acc : list ascii) : list ascii :=
  match fuel with
  | O => acc
  | S fuel' =>
      if n <? 10 then digit_char n :: acc
      else digits_go fuel' (n / 10) (digit_char (n mod 10) :: acc)
  end.

(** [str(n)] for an [int]. *)
Definition decimal (n : Z) : string :=
  let body := text (digits_go (S (Z.to_nat (Z.log2 (Z.abs n)))) (Z.abs n) []) in
  if n <? 0 then "-" +:+ body else body.

(** [n] printed on at least [w] digits, as [%02d] and [%04d] do
    ([n] is not negative where this is used). *)
Definition padded (w : nat) (n : Z) : string :=
  let d := decimal n in
  text (repeat "0"%char (w - String.length d)%nat) +:+ d.

Definition is_digit (c : ascii) : bool :=
  let n := nat_of_ascii c in ((48 <=? n) && (n <=? 57))%nat.

(** White space, as [\s] and [str.strip] see it in ASCII text: the
    space, the characters 9 to 13 (\t \n \v \f \r) and the separators
    28 to 31. *)
Definition is_space (c : ascii) : bool :=
  let n := nat_of_ascii c in
  ((n =? 32) || ((9 <=? n) && (n <=? 13)) || ((28 <=? n) && (n <=? 31)))%nat.

Definition newline : ascii := ascii_of_nat 10.

Definition lower_char (c : ascii) : ascii :=
  let n := nat_of_ascii c in
  if ((65 <=? n) && (n <=? 90))%nat then ascii_of_nat (n + 32) else c.

(** [s.lower()] on ASCII text. *)
Definition lower (s : string) : string := text (map lower_char (chars s)).

Fixpoint starts_with (p s : list ascii) : bool :=
  match p, s with
  | [], _ => true
  | a :: p', b :: s' => Ascii.eqb a b && starts_with p' s'
  | _ :: _, [] => false
  end.

Fixpoint occurs (p s : list ascii) : bool :=
  starts_with p s || match s with [] => false | _ :: s' => occurs p s' end.

(** [p in s] for two [str]. *)
Definition contains (p s : string) : bool := occurs (chars p) (chars s).

Definition digit_val (c : ascii) : Z := Z.of_nat (nat_of_ascii c) - 48.

Definition number_of (l : list ascii) : Z :=
  fold_left (fun acc c => 10 * acc + digit_val c) l 0.

End Text.

(** ** Values decoded from JSON

    [json.loads] yields [None], [bool], [int], [str], [list] and [dict]
    (keys are [str]).  Numbers with a fraction are not represented.  A
    [dict] is the list of its items in insertion order, the keys being
    distinct as the decoder leaves them. *)

#[warnings="-register-all"]
Inductive json : Type :=
| JNull
| JBool (b : bool)
| JInt (n : Z)
| JStr (s : string)
| JArr (l : list json)
| JObj (o : list (string * json)).

(** The exceptions the script can meet. *)
Inductive exn : Type :=
| KeyError
| IndexError
| TypeError
| ValueError
| AttributeError
| UnboundLocalError
| JSONDecodeError.

Definition result (A : Type) : Type := exn + A.

Definition Ok {A} (a : A) : result A := inr a.
Definition Raise {A} (e : exn) : result A := inl e.

Definition rbind {A B} (r : result A) (k : A -> result B) : result B :=
  match r with inl e => inl e | inr a => k a end.

Module Py.

Fixpoint obj_get (k : string) (o : list (string * json)) : option json :=
  match o with
  | [] => None
  | (k', v) :: o' => if String.eqb k k' then Some v else obj_get k o'
  end.

Definition obj_keys (o : list (string * json)) : list string := map fst o.

(** [seq[i]] on a sequence of length [length l]: negative indices count
    from the end. *)
Definition seq_index {A} (l : list A) (i : Z) : result A :=
  let n := Z.of_nat (length l) in
  let j := if i <? 0 then i + n else i in
  if (j <? 0) || (n <=? j) then Raise IndexError
  else match nth_error l (Z.to_nat j) with
       | Some x => Ok x
       | None => Raise IndexError
       end.

(** [v[k]] with a [str] key. *)
Definition getitem (v : json) (k : string) : result json :=
  match v with
  | JObj o => match obj_get k o with Some x => Ok x | None => Raise KeyError end
  | _ => Raise TypeError
  end.

(** [v[i]] with an [int] index. *)
Definition getindex (v : json) (i : Z) : result json :=
  match v with
  | JArr l => seq_index l i
  | JStr s => rbind (seq_index (Text.chars s) i)
                    (fun c => Ok (JStr (String c EmptyString)))
  | JObj _ => Raise KeyError
  | _ => Raise TypeError
  end.

(** [v[k]] where the key is itself a value. *)
Definition getitem_dyn (v k : json) : result json :=
  match k with
  | JStr s => getitem v s
  | JInt i => getindex v i
  | JBool b => getindex v (if b then 1 else 0)
  | JNull => match v with JObj _ => Raise KeyError | _ => Raise TypeError end
  | JArr _ | JObj _ => Raise TypeError
  end.

(** [k in v] with a [str] key. *)
Definition contains_key (k : string) (v : json) : result bool :=
  match v with
  | JObj o => Ok (match obj_get k o with Some _ => true | None => false end)
  | JArr l => Ok (existsb (fun x => match x with
                                    | JStr s => String.eqb k s
                                    | _ => false
                                    end) l)
  | JStr s => Ok (Text.contains k s)
  | _ => Raise TypeError
  end.

(** [iter(v)]: the elements a [for] loop visits. *)
Definition iterate (v : json) : result (list json) :=
  match v with
  | JArr l => Ok l
  | JObj o => Ok (map JStr (obj_keys o))
  | JStr s => Ok (map (fun c => JStr (String c EmptyString)) (Text.chars s))
  | _ => Raise TypeError
  end.

Definition truthy (v : json) : bool :=
  match v with
  | JNull => false
  | JBool b => b
  | JInt n => negb (n =? 0)
  | JStr s => negb (String.eqb s EmptyString)
  | JArr l => match l with [] => false | _ => true end
  | JObj o => match o with [] => false | _ => true end
  end.

Definition bool_int (b : bool) : Z := if b then 1 else 0.

(** [a == b]. *)
Fixpoint eq (a b : json) {struct a} : bool :=
  match a, b with
  | JNull, JNull => true
  | JBool x, JBool y => Bool.eqb x y
  | JBool x, JInt y | JInt y, JBool x => bool_int x =? y
  | JInt x, JInt y => x =? y
  | JStr x, JStr y => String.eqb x y
  | JArr l1, JArr l2 =>
      (fix go (l1 l2 : list json) : bool :=
         match l1, l2 with
         | [], [] => true
         | x :: l1', y :: l2' => eq x y && go l1' l2'
         | _, _ => false
         end) l1 l2
  | JObj o1, JObj o2 =>
      (length o1 =? length o2)%nat
      && (fix go (o : list (string * json)) : bool :=
            match o with
            | [] => true
            | (k, v) :: o' =>
                match obj_get k o2 with
                | Some v' => eq v v'
                | None => false
                end && go o'
            end) o1
  | _, _ => false
  end.

(** [a != b]: every type the decoder produces answers [!=] by inverting
    its own [==] ([object.__ne__] for [None], the rich comparison with
    [Py_NE] for the others). *)
Definition ne (a b : json) : bool :=
  match a, b with
  | JNull, _ => negb (eq JNull b)
  | JBool x, JBool y => negb (Bool.eqb x y)
  | JBool x, JInt y | JInt y, JBool x => negb (bool_int x =? y)
  | JInt x, JInt y => negb (x =? y)
  | JStr x, JStr y => negb (String.eqb x y)
  | JArr _, JArr _ => negb (eq a b)
  | JObj _, JObj _ => negb (eq a b)
  | _, _ => true
  end.


(** [repr(s)] for ASCII text: single quotes unless the text holds one
    and no double quote; backslash, the quote and control characters
    are escaped. *)
Definition hex_digit (n : nat) : ascii :=
  if (n <? 10)%nat then ascii_of_nat (48 + n) else ascii_of_nat (87 + n).

Definition repr_char (q c : ascii) : list ascii :=
  let n := nat_of_ascii c in
  if Ascii.eqb c "\"%char || Ascii.eqb c q then ["\"%char; c]
  else if (n =? 10)%nat then ["\"%char; "n"%char]
  else if (n =? 13)%nat then ["\"%char; "r"%char]
  else if (n =? 9)%nat then ["\"%char; "t"%char]
  else if (n <? 32)%nat || (n =? 127)%nat
       then ["\"%char; "x"%char; hex_digit (n / 16); hex_digit (n mod 16)]
  else [c].

Definition repr_str (s : string) : string :=
  let cs := Text.chars s in
  let single := "'"%char in
  let double := ascii_of_nat 34 in
  let q := if existsb (Ascii.eqb single) cs && negb (existsb (Ascii.eqb double) cs)
           then double else single in
  Text.text (q :: flat_map (repr_char q) cs ++ [q]).

Definition join (sep : string) (l : list string) : string :=
  match l with
  | [] => EmptyString
  | x :: l' => fold_left (fun acc y => acc +:+ sep +:+ y) l' x
  end.

Fixpoint repr (v : json) : string :=
  match v with
  | JNull => "None"
  | JBool b => if b then "True" else "False"
  | JInt n => Text.decimal n
  | JStr s => repr_str s
  | JArr l => "[" +:+ join ", " (map repr l) +:+ "]"
  | JObj o =>
      "{" +:+ join ", " (map (fun kv => repr_str (fst kv) +:+ ": " +:+ repr (snd kv)) o)
          +:+ "}"
  end.

(** [str(v)], which is what [%s] prints. *)
Definition str (v : json) : string :=
  match v with
  | JStr s => s
  | _ => repr v
  end.

Fixpoint strip_left (l : list ascii) : list ascii :=
  match l with
  | c :: l' => if Text.is_space c then strip_left l' else l
  | [] => []
  end.

Definition strip (l : list ascii) : list ascii :=
  rev (strip_left (rev (strip_left l))).

(** The digits of a run of digits in which single underscores may
    stand between two digits. *)
Fixpoint grouped_digits (l : list ascii) : option (list ascii) :=
  match l with
  | [] => None
  | c :: l' =>
      if Text.is_digit c then
        match l' with
        | [] => Some [c]
        | u :: l'' =>
            if Ascii.eqb u "_"%char
            then option_map (cons c) (grouped_digits l'')
            else option_map (cons c) (grouped_digits l')
        end
      else None
  end.

Definition unsigned (l : list ascii) : option Z :=
  option_map Text.number_of (grouped_digits l).

Definition signed (l : list ascii) : option Z :=
  match l with
  | "-"%char :: l' => option_map Z.opp (unsigned l')
  | "+"%char :: l' => unsigned l'
  | _ => unsigned l
  end.

(** [int(v)]: an [int] or [bool] is its value, a [str] is read as a
    signed run of decimal digits between optional white space. *)
Definition int (v : json) : result Z :=
  match v with
  | JInt n => Ok n
  | JBool b => Ok (bool_int b)
  | JStr s => match signed (strip (Text.chars s)) with
              | Some n => Ok n
              | None => Raise ValueError
              end
  | _ => Raise TypeError
  end.

Fixpoint split_at_dot (l : list ascii) : list ascii * option (list ascii) :=
  match l with
  | [] => ([], None)
  | c :: l' =>
      if Ascii.eqb c "."%char then ([], Some l')
      else let '(a, b) := split_at_dot l' in (c :: a, b)
  end.

Definition decimal_literal (l : list ascii) : option Q :=
  let '(neg, body) := match l with
                      | "-"%char :: l' => (true, l')
                      | "+"%char :: l' => (false, l')
                      | _ => (false, l)
                      end in
  let '(ip, fp) := split_at_dot body in
  let fd := match fp with Some f => f | None => [] end in
  if forallb Text.is_digit (ip ++ fd) && negb (Nat.eqb (length (ip ++ fd)) 0)
  then let q := Qmake (Text.number_of (ip ++ fd)) (Pos.pow 10 (Pos.of_nat (length fd))) in
       let q := match fd with [] => inject_Z (Text.number_of ip) | _ => q end in
       Some (Qred (if neg then Qopp q else q))
  else None.

(** [float(v)], as an exact rational: an [int] or [bool] is its value,
    a [str] is read as a signed decimal literal (digits with an optional
    point; exponents and the special values are left out). *)
Definition float (v : json) : result Q :=
  match v with
  | JInt n => Ok (inject_Z n)
  | JBool b => Ok (inject_Z (bool_int b))
  | JStr s => match decimal_literal (strip (Text.chars s)) with
              | Some q => Ok q
              | None => Raise ValueError
              end
  | _ => Raise TypeError
  end.

End Py.

(** ** The record under construction

    [parsed_record] is a [dict] filled in place; its insertion order is
    the column order of the output.  A cell holds a decoded value passed
    through, or text and numbers the script computes.  Two computed cells
    end in floating-point operations and are kept as the exact quantity
    the operation is applied to. *)

Inductive cell : Type :=
| CVal (v : json)
| CHours (q : Q)                    (* round(q, 2) *)
| CSums (l : list (string * Q)).    (* date-sum_ for each bucket, in order *)

Definition CNone : cell := CVal JNull.
Definition CStr (s : string) : cell := CVal (JStr s).
Definition CInt (n : Z) : cell := CVal (JInt n).

Definition prec : Type := list (json * cell).

Module Rec.

(** Keys are compared as [dict] keys are, with [==]. *)
Fixpoint get (k : json) (r : prec) : option cell :=
  match r with
  | [] => None
  | (k', v) :: r' => if Py.eq k k' then Some v else get k r'
  end.

(** [r[k] = v]: a known key keeps its place, a new one goes last. *)
Fixpoint set (k : json) (v : cell) (r : prec) : prec :=
  match r with
  | [] => [(k, v)]
  | (k', v') :: r' =>
      if Py.eq k k' then (k', v) :: r' else (k', v') :: set k v r'
  end.

Definition keys (r : prec) : list json := map fst r.

End Rec.

(** Code that fills the record and may raise: the record as filled so far
    survives the exception, as the mutated [dict] does. *)
Definition M (A : Type) : Type := prec -> prec * result A.

Definition ret {A} (a : A) : M A := fun r => (r, Ok a).
Definition raise {A} (e : exn) : M A := fun r => (r, Raise e).
Definition lift {A} (x : result A) : M A := fun r => (r, x).

Definition bind {A B} (m : M A) (k : A -> M B) : M B :=
  fun r => match m r with
           | (r', inl e) => (r', inl e)
           | (r', inr a) => k a r'
           end.

Definition put (k : string) (v : cell) : M unit :=
  fun r => (Rec.set (JStr k) v r, Ok tt).

(** [parsed_record[k] = v] for a key taken from the payload: a [list] or
    a [dict] cannot be a key. *)
Definition put_dyn (k : json) (v : cell) : M unit :=
  fun r => match k with
           | JArr _ | JObj _ => (r, Raise TypeError)
           | _ => (Rec.set k v r, Ok tt)
           end.

(** [try: m  except E: h], where [handles] tells the exceptions of [E]. *)
Definition try_except {A} (m : M A) (handles : exn -> bool) (h : M A) : M A :=
  fun r => match m r with
           | (r', inl e) => if handles e then h r' else (r', inl e)
           | (r', inr a) => (r', inr a)
           end.

Notation "x <- m ;; k" := (bind m (fun x => k))
  (at level 100, m at next level, right associativity).
Notation "m ;;; k" := (bind m (fun _ => k))
  (at level 100, right associativity).

Definition is_KeyError (e : exn) : bool :=
  match e with KeyError => true | _ => false end.
Definition is_IndexError (e : exn) : bool :=
  match e with IndexError => true | _ => false end.

Fixpoint for_each {A} (l : list A) (body : A -> M unit) : M unit :=
  match l with
  | [] => ret tt
  | x :: l' => body x ;;; for_each l' body
  end.

(** ** Dates and times

    [datetime.fromisoformat], [timestamp], [fromtimestamp], [strftime]
    and [isoformat] of the standard library, with instants counted in
    microseconds since the epoch, so that the arithmetic the script does
    on them is exact.  The grammar read is the documented one,
    YYYY-MM-DD[*HH[:MM[:SS[.fff[fff]]]][+HH:MM[:SS[.ffffff]]]]; any
    other text raises [ValueError]. *)

Module Datetime.

Record t : Type := mk {
  year : Z; month : Z; day : Z;
  hour : Z; minute : Z; second : Z; micro : Z;
  tzoffset : option Z   (* microseconds east of UTC, [None] when naive *)
}.

Definition second_us : Z := 1000000.
Definition day_us : Z := 86400 * second_us.

Definition is_leap (y : Z) : bool :=
  ((y mod 4 =? 0) && negb (y mod 100 =? 0)) || (y mod 400 =? 0).

Definition days_in_month (y m : Z) : Z :=
  if m =? 2 then (if is_leap y then 29 else 28)
  else if (m =? 4) || (m =? 6) || (m =? 9) || (m =? 11) then 30
  else 31.

(** Days from 1970-01-01 to the given civil date. *)
Definition days_from_civil (y m d : Z) : Z :=
  let y' := if m <=? 2 then y - 1 else y in
  let era := y' / 400 in
  let yoe := y' - era * 400 in
  let doy := (153 * (if 2 <? m then m - 3 else m + 9) + 2) / 5 + d - 1 in
  let doe := yoe * 365 + yoe / 4 - yoe / 100 + doy in
  era * 146097 + doe - 719468.

Definition civil_from_days (z : Z) : Z * Z * Z :=
  let z' := z + 719468 in
  let era := z' / 146097 in
  let doe := z' - era * 146097 in
  let yoe := (doe - doe / 1460 + doe / 36524 - doe / 146096) / 365 in
  let doy := doe - (365 * yoe + yoe / 4 - yoe / 100) in
  let mp := (5 * doy + 2) / 153 in
  let d := doy - (153 * mp + 2) / 5 + 1 in
  let m := if mp <? 10 then mp + 3 else mp - 9 in
  let y := yoe + era * 400 in
  (if m <=? 2 then y + 1 else y, m, d).

(** The fields read as an instant of the UTC clock. *)
Definition civil_us (d : t) : Z :=
  days_from_civil (year d) (month d) (day d) * day_us
  + (hour d * 3600 + minute d * 60 + second d) * second_us + micro d.

Definition of_civil_us (us : Z) : result t :=
  let days := us / day_us in
  let rest := us mod day_us in
  let '(y, m, d) := civil_from_days days in
  if (y <? 1) || (9999 <? y) then Raise ValueError
  else Ok (mk y m d (rest / (3600 * second_us))
              (rest / (60 * second_us) mod 60)
              (rest / second_us mod 60)
              (rest mod second_us) None).

Definition digits2 (l : list ascii) : option (Z * list ascii) :=
  match l with
  | a :: b :: r =>
      if Text.is_digit a && Text.is_digit b
      then Some (Text.number_of [a; b], r) else None
  | _ => None
  end.

Definition digits4 (l : list ascii) : option (Z * list ascii) :=
  match l with
  | a :: b :: c :: d :: r =>
      if forallb Text.is_digit [a; b; c; d]
      then Some (Text.number_of [a; b; c; d], r) else None
  | _ => None
  end.

Definition expect (c : ascii) (l : list ascii) : option (list ascii) :=
  match l with
  | c' :: r => if Ascii.eqb c c' then Some r else None
  | [] => None
  end.

Definition parse_date (l : list ascii) : option (Z * Z * Z * list ascii) :=
  '(y, r) ← digits4 l; r ← expect "-"%char r;
  '(m, r) ← digits2 r; r ← expect "-"%char r;
  '(d, r) ← digits2 r; Some (y, m, d, r).

Definition parse_fraction (l : list ascii) : option Z :=
  match l with
  | [] => Some 0
  | c :: f =>
      if Ascii.eqb c "."%char && forallb Text.is_digit f
      then if Nat.eqb (length f) 3 then Some (Text.number_of f * 1000)
           else if Nat.eqb (length f) 6 then Some (Text.number_of f)
           else None
      else None
  end.

(** HH[:MM[:SS[.fff[fff]]]] *)
Definition parse_hms (l : list ascii) : option (Z * Z * Z * Z) :=
  '(h, r) ← digits2 l;
  match r with
  | [] => Some (h, 0, 0, 0)
  | _ =>
      r ← expect ":"%char r; '(mi, r) ← digits2 r;
      match r with
      | [] => Some (h, mi, 0, 0)
      | _ =>
          r ← expect ":"%char r; '(s, r) ← digits2 r;
          us ← parse_fraction r; Some (h, mi, s, us)
      end
  end.

Fixpoint split_tz (l : list ascii) (c : ascii)
  : option (list ascii * list ascii) :=
  match l with
  | [] => None
  | x :: r =>
      if Ascii.eqb x c then Some ([], r)
      else '(a, b) ← split_tz r c; Some (x :: a, b)
  end.

Definition parse_tz (neg : bool) (l : list ascii) : option Z :=
  let n := length l in
  if Nat.eqb n 5 || Nat.eqb n 8 || Nat.eqb n 15 then
    '(h, mi, s, us) ← parse_hms l;
    let off := (h * 3600 + mi * 60 + s) * second_us + us in
    if day_us <=? off then None
    else Some (if neg then - off else off)
  else None.

Definition parse_time (l : list ascii)
  : option (Z * Z * Z * Z * option Z) :=
  let cut := match split_tz l "-"%char with
             | Some (a, b) => Some (true, a, b)
             | None => match split_tz l "+"%char with
                       | Some (a, b) => Some (false, a, b)
                       | None => None
                       end
             end in
  match cut with
  | Some (neg, a, b) =>
      '(h, mi, s, us) ← parse_hms a; off ← parse_tz neg b;
      Some (h, mi, s, us, Some off)
  | None => '(h, mi, s, us) ← parse_hms l; Some (h, mi, s, us, None)
  end.

Definition valid (d : t) : bool :=
  (1 <=? year d) && (year d <=? 9999) && (1 <=? month d) && (month d <=? 12)
  && (1 <=? day d) && (day d <=? days_in_month (year d) (month d))
  && (hour d <=? 23) && (minute d <=? 59) && (second d <=? 59).

Definition parse (l : list ascii) : option t :=
  '(y, m, d, r) ← parse_date l;
  '(h, mi, s, us, off) ← match r with
                         | [] => Some (0, 0, 0, 0, None)
                         | _separator :: time => parse_time time
                         end;
  let dt := mk y m d h mi s us off in
  if valid dt then Some dt else None.

(** [datetime.fromisoformat(v)] *)
Definition fromisoformat (v : json) : result t :=
  match v with
  | JStr s => match parse (Text.chars s) with
              | Some d => Ok d
              | None => Raise ValueError
              end
  | _ => Raise TypeError
  end.

(** [d.strftime("%Y%m%d")] *)
Definition strftime_Ymd (d : t) : string :=
  Text.padded 4 (year d) +:+ Text.padded 2 (month d) +:+ Text.padded 2 (day d).

(** [d.isoformat()] of a naive value. *)
Definition isoformat (d : t) : string :=
  Text.padded 4 (year d) +:+ "-" +:+ Text.padded 2 (month d) +:+ "-"
  +:+ Text.padded 2 (day d) +:+ "T" +:+ Text.padded 2 (hour d) +:+ ":"
  +:+ Text.padded 2 (minute d) +:+ ":" +:+ Text.padded 2 (second d)
  +:+ (if micro d =? 0 then EmptyString else "." +:+ Text.padded 6 (micro d)).

Section Zone.

(** The zone of the machine the script runs on, as a fixed number of
    seconds east of UTC. *)
Variable utcoffset : Z.

(** [d.timestamp()]: a naive value is read on the local clock. *)
Definition timestamp (d : t) : Z :=
  match tzoffset d with
  | Some off => civil_us d - off
  | None => civil_us d - utcoffset * second_us
  end.

(** [datetime.fromtimestamp(us)]: the local clock at that instant. *)
Definition fromtimestamp (us : Z) : result t :=
  of_civil_us (us + utcoffset * second_us).

End Zone.

(** *** Vocabulary for reasoning about dates *)

(** The time of day of a value, in microseconds. *)
Definition time_of_day (d : t) : Z :=
  (hour d * 3600 + minute d * 60 + second d) * second_us + micro d.

(** The fields are in their ranges, as they are in a parsed value. *)
Definition well_formed (d : t) : bool :=
  valid d && (0 <=? hour d) && (0 <=? minute d) && (0 <=? second d)
  && (0 <=? micro d) && (micro d <? second_us).

(** The text of the date that is [n] days after 1970-01-01. *)
Definition Ymd_of_days (n : Z) : string :=
  let '(y, m, d) := civil_from_days n in
  Text.padded 4 y +:+ Text.padded 2 m +:+ Text.padded 2 d.

(** Every date of the year [y] is found again from its day number. *)
Definition year_checked (y : Z) : bool :=
  forallb (fun m =>
    forallb (fun d =>
       let '(y', m', d') := civil_from_days (days_from_civil y m d) in
       (y' =? y) && (m' =? m) && (d' =? d))
      (map Z.of_nat (seq 1 (Z.to_nat (days_in_month y m)))))
    (map Z.of_nat (seq 1 12)).

(** The years of one cycle of the calendar. *)
Definition cycle : list Z := map (fun k => 2000 + Z.of_nat k) (seq 0 400).

End Datetime.

(** ** The description pattern

    [re.compile(r"^.+(Green|Red|Yellow|Blue).+(Green|Red|Yellow|Blue).+\s(\d+)\s*$",
    re.IGNORECASE)] and [pattern.match].  A backtracking matcher is the
    list of its successes in the order the search tries them: greedy
    repetition tries one more iteration before stopping, an alternation
    its branches from left to right; [match] takes the first success. *)

Module Regex.

Inductive regex : Type :=
| Begin                       (* ^ *)
| End_                        (* $ *)
| Any                         (* . *)
| Space                       (* \s *)
| Digit                       (* \d *)
| Lit (w : string)            (* a word, letter case ignored *)
| Alt (a b : regex)           (* a|b *)
| Seq (a b : regex)           (* ab *)
| Plus (a : regex)            (* a+ *)
| Star (a : regex)            (* a* *)
| Group (n : nat) (a : regex) (* (a), the n-th group *).

Record state : Type := mk {
  consumed : list ascii;               (* read so far, latest first *)
  rest : list ascii;
  groups : list (nat * list ascii)
}.

Definition step_char (ok : ascii -> bool) (st : state) : list state :=
  match rest st with
  | c :: r => if ok c then [mk (c :: consumed st) r (groups st)] else []
  | [] => []
  end.

Fixpoint lit (w : list ascii) (st : state) : list state :=
  match w with
  | [] => [st]
  | a :: w' =>
      flat_map (lit w')
        (step_char (fun c => Ascii.eqb (Text.lower_char c) (Text.lower_char a)) st)
  end.

(** Zero or more iterations of [body], longest first; an iteration that
    reads nothing is not repeated. *)
Fixpoint star (fuel : nat) (body : state -> list state) (st : state)
  : list state :=
  match fuel with
  | O => [st]
  | S fuel' =>
      flat_map (fun st' =>
                  if (length (rest st') <? length (rest st))%nat
                  then star fuel' body st' else [])
               (body st)
      ++ [st]
  end.

Definition captured (st st' : state) : list ascii :=
  rev (firstn (length (consumed st') - length (consumed st)) (consumed st')).

Fixpoint run (r : regex) (st : state) : list state :=
  match r with
  | Begin => match consumed st with [] => [st] | _ => [] end
  | End_ => match rest st with
            | [] => [st]
            | [c] => if Ascii.eqb c Text.newline then [st] else []
            | _ => []
            end
  | Any => step_char (fun c => negb (Ascii.eqb c Text.newline)) st
  | Space => step_char Text.is_space st
  | Digit => step_char Text.is_digit st
  | Lit w => lit (Text.chars w) st
  | Alt a b => run a st ++ run b st
  | Seq a b => flat_map (run b) (run a st)
  | Plus a => flat_map (star (length (rest st)) (run a)) (run a st)
  | Star a => star (length (rest st)) (run a) st
  | Group n a =>
      map (fun st' => mk (consumed st') (rest st')
                         ((n, captured st st') :: groups st'))
          (run a st)
  end.

Fixpoint group (n : nat) (g : list (nat * list ascii)) : string :=
  match g with
  | [] => EmptyString
  | (m, w) :: g' => if Nat.eqb n m then Text.text w else group n g'
  end.

(** [r.match(s)]: the groups of the first success, if any. *)
Definition match_ (r : regex) (s : string) : option (list (nat * list ascii)) :=
  match run r (mk [] (Text.chars s) []) with
  | st :: _ => Some (groups st)
  | [] => None
  end.

Declare Scope regex_scope.
Delimit Scope regex_scope with re.
Infix "·" := Seq (at level 41, right associativity) : regex_scope.

Definition color : regex :=
  Alt (Lit "Green") (Alt (Lit "Red") (Alt (Lit "Yellow") (Lit "Blue"))).

Definition pattern : regex :=
  (Begin · Plus Any · Group 1 color · Plus Any · Group 2 color
   · Plus Any · Space · Group 3 (Plus Digit) · Star Space · End_)%re.

(** *** Vocabulary for reasoning about a search *)

(** The state after reading [n] more characters. *)
Definition adv (st : state) (n : nat) : state :=
  mk (rev (firstn n (rest st)) ++ consumed st) (skipn n (rest st)) (groups st).

(** The length of the longest prefix of [l] made of characters of a class. *)
Fixpoint span (ok : ascii -> bool) (l : list ascii) : nat :=
  match l with
  | c :: r => if ok c then S (span ok r) else O
  | [] => O
  end.

Definition not_newline (c : ascii) : bool := negb (Ascii.eqb c Text.newline).

Definition set_group (n : nat) (st st' : state) : state :=
  mk (consumed st') (rest st') ((n, captured st st') :: groups st').

(** [l] has a first element, which is [y]. *)
Definition starts {A} (l : list A) (y : A) : Prop := exists l', l = y :: l'.

(** The pattern, cut where the proof looks at it. *)
Definition after_space : regex := (Group 3 (Plus Digit) · Star Space · End_)%re.
Definition tail3 : regex := (Plus Any · Space · after_space)%re.
Definition tail2 : regex := (Plus Any · Group 2 color · tail3)%re.
Definition tail1 : regex := (Group 1 color · tail2)%re.

End Regex.

(** ** The activity normalizers *)

Inductive var (A : Type) : Type :=
| Unbound
| Bound (a : A).
Arguments Unbound {A}.
Arguments Bound {A} a.

(** [v[a][b]...] along a path of [str] keys. *)
Definition path (v : json) (ks : list string) : result json :=
  fold_left (fun acc k => rbind acc (fun x => Py.getitem x k)) ks (Ok v).

(** [q["results"]["answer"][0]["text"]] *)
Definition answer_text (q : json) : result json :=
  rbind (path q ["results"; "answer"])
        (fun a => rbind (Py.getindex a 0) (fun a0 => Py.getitem a0 "text")).

Section Pipeline.

(** The local zone of the machine, in seconds east of UTC. *)
Variable utcoffset : Z.

Definition _process_timestamps (data : json) : M unit :=
  v <- lift (path data ["timestamps"; "start"]);; put "time_start" (CVal v);;;
  v <- lift (path data ["timestamps"; "end"]);; put "time_end" (CVal v);;;
  v <- lift (path data ["timestamps"; "scheduled_start"]);;
  put "time_scheduled_start" (CVal v);;;
  v <- lift (path data ["timestamps"; "scheduled_end"]);;
  put "time_scheduled_end" (CVal v);;;
  v <- lift (path data ["timestamps"; "submitted"]);; put "submitted_at" (CVal v);;;
  v <- lift (path data ["timestamps"; "start"]);;
  d <- lift (Datetime.fromisoformat v);;
  let start_time := Datetime.timestamp utcoffset d in
  let diff_to_previous_date := start_time mod Datetime.day_us in
  let previous_date := start_time - diff_to_previous_date in
  d' <- lift (Datetime.fromtimestamp utcoffset previous_date);;
  put "Date_as_Number" (CStr (Datetime.strftime_Ymd d')).

Definition baseline_question_groups : list string :=
  ["Basic Demographic Information"; "Basic Medical Information";
   "blood_circulation_problems"; "blood_circulation_type";
   "heart_vascular_disorders"; "heart_vascular_type";
   "musculoskeletal_concerns"; "musculoskeletal_type";
   "respiratory_concerns"; "respiratory_type"; "symptoms_list"].

Definition _process_intake (data : json) : M unit :=
  _process_timestamps data;;;
  for_each baseline_question_groups (fun group_key =>
    try_except
      (results_of_group <- lift (path data ["results"; group_key; "results"]);;
       keys <- lift (Py.iterate results_of_group);;
       for_each keys (fun question_key =>
         question <- lift (Py.getitem_dyn results_of_group question_key);;
         text <- lift (answer_text question);;
         put_dyn question_key (CVal text)))
      is_KeyError
      (put group_key CNone)).

(** [results[k] = v] on a decoded value. *)
Fixpoint obj_set (k : string) (v : json) (o : list (string * json))
  : list (string * json) :=
  match o with
  | [] => [(k, v)]
  | (k', v') :: o' =>
      if String.eqb k k' then (k', v) :: o' else (k', v') :: obj_set k v o'
  end.

Definition setitem (c : json) (k : string) (v : json) : result json :=
  match c with
  | JObj o => Ok (JObj (obj_set k v o))
  | _ => Raise TypeError
  end.

Definition _process_mood_questionnaires (data : json) : M unit :=
  _process_timestamps data;;;
  results <- try_except (lift (path data ["results"; "Questions"; "results"]))
                        is_KeyError (ret (JObj []));;
  results <- try_except
               (q10 <- lift (path data ["results"; "Questions 2"; "results";
                                        "question10"]);;
                lift (setitem results "question10" q10))
               is_KeyError (ret results);;
  keys <- lift (Py.iterate results);;
  for_each keys (fun question_key =>
    question <- lift (Py.getitem_dyn results question_key);;
    text <- lift (answer_text question);;
    put_dyn question_key (CVal text)).

(** [pattern.match(d)]: the match object, or [None]. *)
Definition pattern_match (d : json) : result (option (list (nat * list ascii))) :=
  match d with
  | JStr s => Ok (Regex.match_ Regex.pattern s)
  | _ => Raise TypeError
  end.

Definition inter (i : Z) (suffix : string) : string :=
  "Inter" +:+ Text.decimal (i + 1) +:+ suffix.

Definition filler : json := JObj [("time", JNull); ("correctness", JNull)].

(** One turn of the loop over the 30 slots; [matcher] is the local
    variable as the previous turn left it. *)
Definition stroop_slot (interactions : json) (i : Z)
    (matcher : var (option (list (nat * list ascii))))
  : M (var (option (list (nat * list ascii)))) :=
  interaction <- try_except (lift (Py.getindex interactions i))
                            is_IndexError (ret filler);;
  time <- lift (Py.getitem interaction "time");;
  (if Py.truthy time then put (inter i "_Date_Time") (CVal time)
   else put (inter i "_Date_Time") CNone);;;
  correctness <- lift (Py.getitem interaction "correctness");;
  put (inter i "_Correct") (CVal correctness);;;
  matcher <- try_except
               (d <- lift (Py.getitem interaction "description");;
                m <- lift (pattern_match d);;
                ret (Bound m))
               is_KeyError (ret matcher);;
  match matcher with
  | Unbound => raise UnboundLocalError
  | Bound (Some matches) =>
      put (inter i "_Color") (CStr (Regex.group 1 matches));;;
      put (inter i "_Spelling") (CStr (Regex.group 2 matches));;;
      ret matcher
  | Bound None =>
      put (inter i "_Color") CNone;;;
      put (inter i "_Spelling") CNone;;;
      ret matcher
  end.

Fixpoint stroop_loop (interactions : json) (slots : list Z)
    (matcher : var (option (list (nat * list ascii)))) : M unit :=
  match slots with
  | [] => ret tt
  | i :: slots' =>
      matcher' <- stroop_slot interactions i matcher;;
      stroop_loop interactions slots' matcher'
  end.

(** [range(n)] *)
Definition range (n : nat) : list Z := map Z.of_nat (seq 0 n).

Definition _process_task_stroop (data : json) : M unit :=
  _process_timestamps data;;;
  interactions <- lift (path data ["results"; "at_stroopeffect"; "interactions"]);;
  stroop_loop interactions (range 30) Unbound.

Record tally : Type := mkTally {
  correct_right : Z; correct_left : Z;
  incorrect_right : Z; incorrect_left : Z;
  missing_data : Z
}.

(** [interaction['description'].lower()] *)
Definition description_lower (interaction : json) : result string :=
  rbind (Py.getitem interaction "description")
        (fun d => match d with
                  | JStr s => Ok (Text.lower s)
                  | _ => Raise AttributeError
                  end).

(** The body of the loop over [enumerate(interactions)]. *)
Definition tapping_step (interactions : json) (i : Z) (interaction : json)
    (c : tally) : result tally :=
  if i =? 0 then Ok c
  else
    rbind (rbind (Py.getindex interactions (i - 1))
                 (fun x => Py.getitem x "description")) (fun prev =>
    rbind (rbind (Py.getindex interactions i)
                 (fun x => Py.getitem x "description")) (fun cur =>
    if Py.ne prev cur then
      let modifier := 1 in
      rbind (description_lower interaction) (fun d =>
      if Text.contains " right " d then
        Ok (mkTally (correct_right c + modifier) (correct_left c)
                    (incorrect_right c) (incorrect_left c) (missing_data c))
      else rbind (description_lower interaction) (fun d =>
      if Text.contains " left " d then
        Ok (mkTally (correct_right c) (correct_left c + modifier)
                    (incorrect_right c) (incorrect_left c) (missing_data c))
      else Ok c))
    else
    rbind (rbind (Py.getindex interactions (i - 1))
                 (fun x => Py.getitem x "description")) (fun prev =>
    rbind (rbind (Py.getindex interactions i)
                 (fun x => Py.getitem x "description")) (fun cur =>
    if Py.eq prev cur then
      let modifier := 1 in
      rbind (description_lower interaction) (fun d =>
      if Text.contains " right " d then
        Ok (mkTally (correct_right c) (correct_left c)
                    (incorrect_right c + modifier) (incorrect_left c)
                    (missing_data c))
      else rbind (description_lower interaction) (fun d =>
      if Text.contains " left " d then
        Ok (mkTally (correct_right c) (correct_left c)
                    (incorrect_right c) (incorrect_left c + modifier)
                    (missing_data c))
      else Ok c))
    else
      Ok (mkTally (correct_right c) (correct_left c)
                  (incorrect_right c) (incorrect_left c)
                  (missing_data c + 1)))))).

Fixpoint tapping_loop (interactions : json) (i : Z) (items : list json)
    (c : tally) : result tally :=
  match items with
  | [] => Ok c
  | interaction :: items' =>
      rbind (tapping_step interactions i interaction c)
            (tapping_loop interactions (i + 1) items')
  end.

Definition _process_task_tapping (data : json) : M unit :=
  _process_timestamps data;;;
  interactions <- lift (path data ["results"; "at_tapping"; "interactions"]);;
  items <- lift (Py.iterate interactions);;
  c <- lift (tapping_loop interactions 0 items (mkTally 0 0 0 0 0));;
  put "Correct_Right_Hand" (CInt (correct_right c));;;
  put "Correct_Left_Hand" (CInt (correct_left c));;;
  put "Incorrect_Right_Hand" (CInt (incorrect_right c));;;
  put "Incorrect_Left_Hand" (CInt (incorrect_left c));;;
  put "Missing_data" (CInt (missing_data c)).

(** What the accumulator keeps for one block type. *)
Record bucket : Type := mkBucket {
  sum : list (string * Q);   (* date of dateFrom -> total, in order *)
  date_first : Z;
  date_last : Z
}.

Fixpoint sum_get (d : string) (l : list (string * Q)) : option Q :=
  match l with
  | [] => None
  | (d', q) :: l' => if String.eqb d d' then Some q else sum_get d l'
  end.

Fixpoint sum_set (d : string) (q : Q) (l : list (string * Q))
  : list (string * Q) :=
  match l with
  | [] => [(d, q)]
  | (d', q') :: l' =>
      if String.eqb d d' then (d', q) :: l' else (d', q') :: sum_set d q l'
  end.

Definition accumulator : Type := list (json * bucket).

Fixpoint acc_get (k : json) (a : accumulator) : option bucket :=
  match a with
  | [] => None
  | (k', b) :: a' => if Py.eq k k' then Some b else acc_get k a'
  end.

Fixpoint acc_set (k : json) (b : bucket) (a : accumulator) : accumulator :=
  match a with
  | [] => [(k, b)]
  | (k', b') :: a' =>
      if Py.eq k k' then (k', b) :: a' else (k', b') :: acc_set k b a'
  end.

Definition hashable (k : json) : result unit :=
  match k with
  | JArr _ | JObj _ => Raise TypeError
  | _ => Ok tt
  end.

Definition block_timestamp (block : json) (field : string) : result Z :=
  rbind (Py.getitem block field) (fun v =>
  rbind (Datetime.fromisoformat v) (fun d =>
  Ok (Datetime.timestamp utcoffset d))).

(** The body of the first loop of [_process_healthdata]. *)
Definition health_step (acc : accumulator) (block : json) : result accumulator :=
  rbind (Py.getitem block "type") (fun block_type =>
  rbind (Py.getitem block "dateFrom") (fun v =>
  rbind (Datetime.fromisoformat v) (fun d =>
  let date_from := Datetime.strftime_Ymd d in
  rbind (hashable block_type) (fun _ =>
  match acc_get block_type acc with
  | Some b =>
      rbind (rbind (Py.getitem block "value") Py.float) (fun value =>
      let total := match sum_get date_from (sum b) with
                   | Some q => Qred (q + value)
                   | None => value
                   end in
      let b := mkBucket (sum_set date_from total (sum b))
                        (date_first b) (date_last b) in
      rbind (block_timestamp block "dateFrom") (fun current_date_from =>
      let b := if current_date_from <? date_first b
               then mkBucket (sum b) current_date_from (date_last b) else b in
      rbind (block_timestamp block "dateTo") (fun current_date_to =>
      let b := if date_last b <? current_date_to
               then mkBucket (sum b) (date_first b) current_date_to else b in
      Ok (acc_set block_type b acc))))
  | None =>
      rbind (block_timestamp block "dateFrom") (fun first =>
      rbind (block_timestamp block "dateTo") (fun last =>
      rbind (rbind (Py.getitem block "value") Py.float) (fun value =>
      Ok (acc_set block_type (mkBucket [(date_from, value)] first last) acc))))
  end)))).

Fixpoint health_loop (acc : accumulator) (blocks : list json)
  : result accumulator :=
  match blocks with
  | [] => Ok acc
  | block :: blocks' => rbind (health_step acc block)
                              (fun acc' => health_loop acc' blocks')
  end.

Fixpoint after_dot (l : list ascii) : option (list ascii) :=
  match l with
  | [] => None
  | c :: l' => if Ascii.eqb c "."%char then Some l' else after_dot l'
  end.

Fixpoint until_dot (l : list ascii) : list ascii :=
  match l with
  | [] => []
  | c :: l' => if Ascii.eqb c "."%char then [] else c :: until_dot l'
  end.

(** [key.split(".")[1]] when the key holds a dot, the key otherwise. *)
Definition col_name_of (key : string) : string :=
  match after_dot (Text.chars key) with
  | Some l => Text.text (until_dot l)
  | None => key
  end.

Definition unit_us : Z := 3600 * Datetime.second_us.

(** [int(time_diff / unit) + (time_diff % unit) / unit], before it is
    rounded: [int] truncates toward zero, [%] takes the sign of [unit]. *)
Definition diff_as_nr (time_diff : Z) : Q :=
  Qred (inject_Z (Z.quot time_diff unit_us)
        + Qmake (time_diff mod unit_us) (Z.to_pos unit_us)).

Definition health_columns (acc : accumulator) (block_type_key : string)
  : M unit :=
  let block_type := acc_get (JStr block_type_key) acc in
  let col_name := col_name_of block_type_key in
  put ("Total_Dates_" +:+ col_name)
      (match block_type with Some b => CSums (sum b) | None => CNone end);;;
  start_time_iso <-
    match block_type with
    | Some b => d <- lift (Datetime.fromtimestamp utcoffset (date_first b));;
                ret (CStr (Datetime.isoformat d))
    | None => ret CNone
    end;;
  put (col_name +:+ "_Session_Start_Time") start_time_iso;;;
  end_time_iso <-
    match block_type with
    | Some b => d <- lift (Datetime.fromtimestamp utcoffset (date_last b));;
                ret (CStr (Datetime.isoformat d))
    | None => ret CNone
    end;;
  put (col_name +:+ "_Session_End_Time") end_time_iso;;;
  put (col_name +:+ "_Hours_Range")
      (match block_type with
       | Some b => CHours (diff_as_nr (date_last b - date_first b))
       | None => CNone
       end).

Definition _process_healthdata (data : json) : M unit :=
  _process_timestamps data;;;
  results <- lift (Py.getitem data "results");;
  blocks <- lift (Py.iterate results);;
  acc <- lift (health_loop [] blocks);;
  for_each ["HealthDataType.STEPS"; "HealthDataType.ACTIVE_ENERGY_BURNED"]
           (health_columns acc).

End Pipeline.

(** ** The loop of [main]

    A response record of the export.  Its [study], [metadata] and [data]
    fields are JSON text that the script decodes with [json.loads]; each
    is given here by what decoding it does: the decoded value, or the
    exception raised (the text is malformed, or the field is not text).
    [None] is a field the record does not have. *)

Record raw : Type := mkRaw {
  r_id : option json;
  r_participant_id : option json;
  r_response_type : option json;
  r_created_at : option json;
  r_study : option (result json);
  r_metadata : option (result json);
  r_data : option (result json)
}.

Definition field (f : option json) : result json :=
  match f with Some v => Ok v | None => Raise KeyError end.

(** [RESPONSE_TYPES[code]] *)
Definition RESPONSE_TYPES (code : Z) : result string :=
  if code =? 1 then Ok "questionnaire"
  else if code =? 2 then Ok "task"
  else if code =? 3 then Ok "healthdata"
  else Raise KeyError.

(** What the loop carries from one record to the next: the tally of
    skipped records, the submission counters, the output groups in the
    order they were opened, and the local variable [metadata], which keeps
    the value a previous record gave it. *)
Record state : Type := mkState {
  skipped : Z;
  participant_responses : gmap string Z;
  output_data : list (string * list prec);
  metadata : var json
}.

Definition initial : state := mkState 0 ∅ [] Unbound.


(** [output_data[k].append(r)], the group being opened when it is new. *)
Fixpoint group_append (k : string) (r : prec) (out : list (string * list prec))
  : list (string * list prec) :=
  match out with
  | [] => [(k, [r])]
  | (k', g) :: out' =>
      if String.eqb k k' then (k', g ++ [r]) :: out'
      else (k', g) :: group_append k r out'
  end.

(** The text of a cell under [%s].  The two computed float cells stand
    under column names of their own and are never printed this way. *)
Definition cell_str (c : cell) : result string :=
  match c with
  | CVal v => Ok (Py.str v)
  | _ => Raise TypeError
  end.

Section Main.

Variable utcoffset : Z.

(** A [try] block of the loop: whatever it raises is caught, and the
    handler counts the record as skipped.  The handler ends in the bare
    name [next], which does nothing: the loop body goes on with the
    record as the block left it.  The result is the record and the
    number added to the tally. *)
Definition guarded (m : M unit) (r : prec) : prec * Z :=
  match m r with
  | (r', inl _) => (r', 1)
  | (r', inr _) => (r', 0)
  end.

Definition study_block (record : raw) : M unit :=
  match r_study record with
  | Some decoded =>
      study <- lift decoded;;
      v <- lift (Py.getitem study "short_name");; put "study" (CVal v);;;
      v <- lift (Py.getitem study "version");; put "study_version" (CVal v)
  | None => ret tt
  end.

Definition metadata_block (record : raw) : M unit :=
  match r_metadata record with
  | Some decoded =>
      metadata <- lift decoded;;
      has <- lift (Py.contains_key "activity" metadata);;
      activity <- (if has then lift (Py.getitem metadata "activity")
                   else ret JNull);;
      (match has, activity with
       | true, JNull | false, _ => put "activity" (CStr "all")
       | true, _ =>
           v <- lift (Py.getitem activity "short_name");;
           put "activity" (CVal v)
       end);;;
      has_app <- lift (Py.contains_key "app" metadata);;
      if has_app then
        version <- lift (path metadata ["app"; "version"]);;
        build <- lift (path metadata ["app"; "build"]);;
        put "app_version" (CStr (Py.str version +:+ " - " +:+ Py.str build));;;
        tz <- lift (path metadata ["app"; "device"; "tz"]);;
        put "timezone" (CVal tz)
      else ret tt
  | None => ret tt
  end.

(** The variable [metadata] after the block: rebound when the record
    has the field and decoding it succeeded, left as it was otherwise. *)
Definition metadata_after (record : raw) (old : var json) : var json :=
  match r_metadata record with
  | Some (inr m) => Bound m
  | _ => old
  end.

Definition activity_type_of (metadata : var json) : result json :=
  match metadata with
  | Unbound => Raise UnboundLocalError
  | Bound m => path m ["activity"; "short_name"]
  end.

Definition data_block (record : raw) (rtype : string) (metadata : var json)
  : M unit :=
  match r_data record with
  | Some decoded =>
      data <- lift decoded;;
      if Text.contains "questionnaire" rtype then
        activity_type <- lift (activity_type_of metadata);;
        if Py.eq activity_type (JStr "qes_intake")
        then _process_intake utcoffset data
        else if Py.eq activity_type (JStr "qes_final")
        then ret tt   (* print("Not supported") *)
        else _process_mood_questionnaires utcoffset data
      else if Text.contains "task" rtype then
        activity_type <- lift (activity_type_of metadata);;
        if Py.eq activity_type (JStr "at_stroopeffect")
        then _process_task_stroop utcoffset data
        else if Py.eq activity_type (JStr "at_tapping")
        then _process_task_tapping utcoffset data
        else ret tt
      else if Text.contains "healthdata" rtype then
        _process_healthdata utcoffset data
      else ret tt
  | None => ret tt
  end.

(** [file_key = '%s-%s' % (parsed_record['response_type'],
    parsed_record['activity'])] *)
Definition file_key_of (parsed_record : prec) : result string :=
  rbind (match Rec.get (JStr "response_type") parsed_record with
         | Some c => cell_str c
         | None => Raise KeyError
         end) (fun a =>
  rbind (match Rec.get (JStr "activity") parsed_record with
         | Some c => cell_str c
         | None => Raise KeyError
         end) (fun b =>
  Ok (a +:+ "-" +:+ b))).

Definition submission_key_of (pid : json) (file_key : string) : string :=
  Py.str pid +:+ ":" +:+ file_key.

(** The record as built by lines 118 to 193 of the script, with the
    number of handlers it went through and the variable [metadata]. *)
Definition build_record (record : raw) (old : var json)
  : result (json * prec * Z * var json) :=
  rbind (field (r_participant_id record)) (fun pid =>
  rbind (rbind (field (r_response_type record)) Py.int) (fun code =>
  rbind (RESPONSE_TYPES code) (fun rtype =>
  rbind (field (r_id record)) (fun id =>
  let parsed_record :=
    [(JStr "id", CVal id); (JStr "participant", CVal pid);
     (JStr "response_type", CStr rtype)] in
  let '(parsed_record, s1) := guarded (study_block record) parsed_record in
  let '(parsed_record, s2) := guarded (metadata_block record) parsed_record in
  let metadata := metadata_after record old in
  rbind (field (r_created_at record)) (fun created_at =>
  let parsed_record := Rec.set (JStr "received_at") (CVal created_at)
                               parsed_record in
  let '(parsed_record, s3) :=
    guarded (data_block record rtype metadata) parsed_record in
  Ok (pid, parsed_record, s1 + s2 + s3, metadata)))))).

(** One turn of the loop over the records.  An exception outside the
    [try] blocks leaves the loop, and [main] with it. *)
Definition process_record (st : state) (record : raw) : result state :=
  rbind (build_record record (metadata st)) (fun '(pid, parsed_record, s, metadata) =>
  rbind (file_key_of parsed_record) (fun file_key =>
  let submission_key := submission_key_of pid file_key in
  let count := default 0 (participant_responses st !! submission_key) + 1 in
  let parsed_record :=
    Rec.set (JStr "submission_index") (CInt count) parsed_record in
  Ok (mkState (skipped st + s)
              (<[submission_key := count]> (participant_responses st))
              (group_append file_key parsed_record (output_data st))
              metadata))).

Fixpoint main_loop (st : state) (records : list raw) : result state :=
  match records with
  | [] => Ok st
  | record :: records' =>
      rbind (process_record st record) (fun st' => main_loop st' records')
  end.

(** [main] up to the point where the groups are written out. *)
Definition main (response_records : list raw) : result state :=
  main_loop initial response_records.

End Main.

(** ** What the run stamps, record by record

    For the properties of the submission counter the run is read as the
    list of its events: for each record, the participant, the group key
    and the record as appended to the group's buffer. *)

Section Trace.

Variable utcoffset : Z.




End Trace.





(** ** The health range in the spec's words *)


(** ** Colour words in a description *)

Module Colors.

Definition words : list string := ["Green"; "Red"; "Yellow"; "Blue"].

Fixpoint starts_ci (w s : list ascii) : bool :=
  match w, s with
  | [], _ => true
  | a :: w', c :: s' =>
      Ascii.eqb (Text.lower_char c) (Text.lower_char a) && starts_ci w' s'
  | _ :: _, [] => false
  end.

(** The length of the colour word [s] starts with, if it starts with one. *)
Definition word_at (s : list ascii) : option nat :=
  option_map String.length
             (find (fun w => starts_ci (Text.chars w) s) words).

(** [s] is a colour word, in any letter case. *)
Definition is_word (s : list ascii) : bool :=
  match word_at s with
  | Some n => Nat.eqb n (length s)
  | None => false
  end.

(** The offsets in [s] at which a colour word starts. *)
Definition positions (s : list ascii) : list nat :=
  List.filter (fun k => match word_at (skipn k s) with
                        | Some _ => true
                        | None => false
                        end)
              (seq 0 (length s)).

End Colors.

(** ** Sample inputs *)

Module Sample.

Definition timestamps (start : string) : string * json :=
  ("timestamps",
   JObj [("start", JStr start); ("end", JStr "2021-03-18T09:00:00");
         ("scheduled_start", JNull); ("scheduled_end", JNull);
         ("submitted", JStr "2021-03-18T09:00:05")]).

Definition started (start : string) : json := JObj [timestamps start].

Definition say_green_red : string := "Say the word GREEN written in Red ink 42".

Definition stroop (interactions : list json) : json :=
  JObj [timestamps "2021-03-17T14:30:00";
        ("results", JObj [("at_stroopeffect",
                           JObj [("interactions", JArr interactions)])])].

Definition trial (description : string) : json :=
  JObj [("time", JStr "2021-03-17T14:30:05"); ("correctness", JBool true);
        ("description", JStr description)].

Definition tap (description : string) : json :=
  JObj [("time", JStr "2021-03-17T14:30:05"); ("description", JStr description)].

Definition tapping : json :=
  JObj [timestamps "2021-03-17T14:30:00";
        ("results",
         JObj [("at_tapping",
                JObj [("interactions",
                       JArr [tap "Tap the right button";
                             tap "Tap the left button";
                             tap "Tap the left button";
                             tap "Tap the right button"])])])].


Definition block (type dateFrom dateTo : string) (value : Z) : json :=
  JObj [("type", JStr type); ("dateFrom", JStr dateFrom);
        ("dateTo", JStr dateTo); ("value", JInt value)].




Definition activity (short_name : string) : json :=
  JObj [("activity", JObj [("short_name", JStr short_name)])].

Definition response (pid : string) (code : Z) (short_name : string) : raw :=
  mkRaw (Some (JInt 7)) (Some (JStr pid)) (Some (JInt code))
        (Some (JStr "2021-03-17 20:04:00")) None
        (Some (Ok (activity short_name))) None.

(** A record whose [study] text does not decode. *)
Definition bad_study : raw :=
  mkRaw (Some (JInt 7)) (Some (JStr "P")) (Some (JInt 3))
        (Some (JStr "2021-03-17 20:04:00")) (Some (Raise JSONDecodeError))
        (Some (Ok (activity "steps"))) None.

(** A record with no [metadata] field. *)
Definition no_metadata : raw :=
  mkRaw (Some (JInt 7)) (Some (JStr "P")) (Some (JInt 3))
        (Some (JStr "2021-03-17 20:04:00")) None None None.


End Sample.

(** ** Vocabulary of the statements *)

Definition date_as_number (utcoffset : Z) (start : string) : option cell :=
  Rec.get (JStr "Date_as_Number")
          (fst (_process_timestamps utcoffset (Sample.started start) [])).

Definition without_study (record : raw) : raw :=
  mkRaw (r_id record) (r_participant_id record) (r_response_type record)
        (r_created_at record) None (r_metadata record) (r_data record).

Definition count_skipped (n : Z) (st : state) : state :=
  mkState (skipped st + n) (participant_responses st) (output_data st)
          (metadata st).





















(** * Properties *)

(** ** Comparisons and records *)

Lemma ne_is_not_eq (a b : json) : Py.ne a b = negb (Py.eq a b).
Proof. destruct a, b; reflexivity. Qed.

Lemma eq_str_inv (s : string) (k : json) : Py.eq (JStr s) k = true -> k = JStr s.
Proof.
  destruct k; simpl; try discriminate.
  intros H. apply String.eqb_eq in H. now subst.
Qed.


Lemma eq_str (a b : string) : Py.eq (JStr a) (JStr b) = String.eqb a b.
Proof. reflexivity. Qed.

Lemma get_set (a b : string) (v : cell) (r : prec) :
  Rec.get (JStr a) (Rec.set (JStr b) v r)
  = if String.eqb a b then Some v else Rec.get (JStr a) r.
Proof.
  induction r as [|[k c] r IH].
  - reflexivity.
  - cbn [Rec.get Rec.set].
    destruct (Py.eq (JStr b) k) eqn:Eb; cbn [Rec.get].
    + apply eq_str_inv in Eb. subst k. rewrite eq_str.
      destruct (String.eqb a b); reflexivity.
    + destruct (Py.eq (JStr a) k) eqn:Ea; [|exact IH].
      apply eq_str_inv in Ea. subst k. rewrite eq_str in Eb.
      destruct (String.eqb a b) eqn:E; [|reflexivity].
      apply String.eqb_eq in E. subst. now rewrite String.eqb_refl in Eb.
Qed.

Lemma get_put (a b : string) (v : cell) (r : prec) :
  Rec.get (JStr a) (fst (put b v r))
  = if String.eqb a b then Some v else Rec.get (JStr a) r.
Proof. apply get_set. Qed.

(** Inversion of the sequencing of two steps that succeed. *)
Lemma bind_ok {A B} (m : M A) (k : A -> M B) (r r' : prec) (b : B) :
  bind m k r = (r', Ok b) ->
  exists r1 a, m r = (r1, Ok a) /\ k a r1 = (r', Ok b).
Proof.
  unfold bind. destruct (m r) as [r1 [e|a]]; intros H.
  - discriminate.
  - eauto.
Qed.

Lemma lift_ok {A} (x : result A) (r r' : prec) (a : A) :
  lift x r = (r', Ok a) -> r' = r /\ x = Ok a.
Proof. unfold lift. intros H. injection H as -> ->. auto. Qed.

Lemma rbind_ok {A B} (x : result A) (k : A -> result B) (b : B) :
  rbind x k = Ok b -> exists a, x = Ok a /\ k a = Ok b.
Proof. destruct x as [e|a]; simpl; [discriminate | eauto]. Qed.

(** ** The tapping normalizer *)

Lemma tapping_step_missing (interactions : json) (i : Z) (x : json) (c c' : tally) :
  tapping_step interactions i x c = Ok c' -> missing_data c' = missing_data c.
Proof.
  unfold tapping_step. destruct (i =? 0).
  { intros H. injection H as <-. reflexivity. }
  intros H.
  apply rbind_ok in H as (prev & Hprev & H).
  apply rbind_ok in H as (cur & Hcur & H).
  rewrite ne_is_not_eq in H.
  rewrite Hprev, Hcur in H. simpl in H.
  destruct (Py.eq prev cur); simpl in H.
  - apply rbind_ok in H as (d & _ & H).
    destruct (Text.contains " right " d).
    + injection H as <-. reflexivity.
    + apply rbind_ok in H as (d' & _ & H).
      destruct (Text.contains " left " d'); injection H as <-; reflexivity.
  - apply rbind_ok in H as (d & _ & H).
    destruct (Text.contains " right " d).
    + injection H as <-. reflexivity.
    + apply rbind_ok in H as (d' & _ & H).
      destruct (Text.contains " left " d'); injection H as <-; reflexivity.
Qed.

Lemma tapping_loop_missing (interactions : json) (items : list json) :
  forall (i : Z) (c c' : tally),
    tapping_loop interactions i items c = Ok c' ->
    missing_data c' = missing_data c.
Proof.
  induction items as [|x items IH]; simpl; intros i c c' H.
  - injection H as <-. reflexivity.
  - apply rbind_ok in H as (c1 & H1 & H).
    apply IH in H. apply tapping_step_missing in H1. congruence.
Qed.

(** C5.  Whenever the tapping normalizer completes, Missing_data is 0:
    an interaction after the first has a description that differs from
    the previous one or equals it, so the last branch is never taken. *)
Theorem tapping_missing_data_is_zero (utcoffset : Z) (data : json) (r r' : prec) :
  _process_task_tapping utcoffset data r = (r', Ok tt) ->
  Rec.get (JStr "Missing_data") r' = Some (CInt 0).
Proof.
  unfold _process_task_tapping. intros H.
  apply bind_ok in H as (r1 & [] & _ & H).
  apply bind_ok in H as (r2 & interactions & _ & H).
  apply bind_ok in H as (r3 & items & _ & H).
  apply bind_ok in H as (r4 & c & Hc & H).
  apply lift_ok in Hc as [-> Hc].
  apply tapping_loop_missing in Hc. simpl in Hc.
  repeat (apply bind_ok in H as (? & [] & _ & H)).
  replace r' with (fst (put "Missing_data" (CInt (missing_data c)) x2))
    by now rewrite H.
  rewrite get_put. simpl. now rewrite Hc.
Qed.

Lemma tapping_missing_data_is_zero_witness :
  Rec.get (JStr "Missing_data")
          (fst (_process_task_tapping 0 Sample.tapping [])) = Some (CInt 0).
Proof.
  apply (tapping_missing_data_is_zero 0 Sample.tapping []).
  vm_compute. reflexivity.
Defined.


(** ** The Stroop normalizer: slots past the last interaction *)

(** A slot past the end of the list reads the filler, whose missing
    description leaves [matcher] as the turn before set it. *)
Lemma stroop_slot_past_end (l : list json) (i : Z)
    (matches : list (nat * list ascii)) (r : prec) :
  Z.of_nat (length l) <= i ->
  stroop_slot (JArr l) i (Bound (Some matches)) r
  = (Rec.set (JStr (inter i "_Spelling")) (CStr (Regex.group 2 matches))
       (Rec.set (JStr (inter i "_Color")) (CStr (Regex.group 1 matches))
          (Rec.set (JStr (inter i "_Correct")) CNone
             (Rec.set (JStr (inter i "_Date_Time")) CNone r))),
     Ok (Bound (Some matches))).
Proof.
  intros Hi. unfold stroop_slot, bind, try_except, lift. simpl.
  unfold Py.seq_index.
  replace (i <? 0) with false by lia.
  replace (Z.of_nat (length l) <=? i) with true by lia.
  rewrite orb_true_r. reflexivity.
Qed.

(** C2.  With a single interaction whose description matches, the slots
    past it have a null Date_Time but repeat the Color and Spelling of the
    last interaction: the filler has no description, the KeyError is
    passed over, and [matcher] still holds the previous match. *)
Theorem stroop_short_list_repeats_last_match :
  let r := fst (_process_task_stroop 0
                  (Sample.stroop [Sample.trial Sample.say_green_red]) []) in
  Rec.get (JStr "Inter2_Date_Time") r = Some CNone
  /\ Rec.get (JStr "Inter2_Color") r = Some (CStr "GREEN")
  /\ Rec.get (JStr "Inter2_Spelling") r = Some (CStr "Red")
  /\ Rec.get (JStr "Inter30_Color") r = Some (CStr "GREEN")
  /\ Rec.get (JStr "Inter30_Spelling") r = Some (CStr "Red").
Proof. vm_compute. repeat split. Qed.

Lemma stroop_empty_list_raises :
  _process_task_stroop 0 (Sample.stroop []) []
  = (fst (_process_timestamps 0 (Sample.stroop []) [])
       ++ [(JStr "Inter1_Date_Time", CNone); (JStr "Inter1_Correct", CNone)],
     Raise UnboundLocalError).
Proof. vm_compute. reflexivity. Qed.

(** ** The date column *)

Lemma date_as_number_on_utc_machine :
  date_as_number 0 "2021-03-17T14:30:00" = Some (CStr "20210317")
  /\ date_as_number 0 "2021-03-17T23:59:59" = Some (CStr "20210317")
  /\ date_as_number 0 "2021-03-18T00:00:01" = Some (CStr "20210318").
Proof. vm_compute. repeat split. Qed.

(** C4.  On a machine one hour east of UTC the start
    2021-03-18T00:00:01 gives Date_as_Number 20210317: the modulo-86400
    truncation finds the midnight of the UTC clock, which the local clock
    reads as a time of the day before or after. *)
Theorem date_as_number_east_of_utc :
  date_as_number 3600 "2021-03-18T00:00:01" = Some (CStr "20210317").
Proof. vm_compute. reflexivity. Qed.

Lemma date_as_number_west_of_utc :
  date_as_number (-18000) "2021-03-17T14:30:00" = Some (CStr "20210316").
Proof. vm_compute. reflexivity. Qed.

(** ** The handlers of the record loop *)

(** C7.  A record whose study text does not decode is counted as
    skipped and is appended all the same, with the columns filled so far
    and after: the handler ends in [next], not [continue]. *)
Theorem failed_study_record_is_appended :
  exists st,
    main 0 [Sample.bad_study] = Ok st
    /\ skipped st = 1
    /\ output_data st
       = [("healthdata-steps",
           [[(JStr "id", CInt 7); (JStr "participant", CStr "P");
             (JStr "response_type", CStr "healthdata");
             (JStr "activity", CStr "steps");
             (JStr "received_at", CStr "2021-03-17 20:04:00");
             (JStr "submission_index", CInt 1)]])].
Proof. eexists. split; [reflexivity|]. split; reflexivity. Qed.

(** C9.  A record without a metadata field gets no activity column:
    the group key cannot be formed and the run stops with a KeyError,
    where the spec's default "all" was expected. *)
Theorem missing_metadata_aborts_run :
  main 0 [Sample.no_metadata] = Raise KeyError.
Proof. reflexivity. Qed.


(** ** Response types outside the enumeration *)

Lemma unknown_code_raises (code : Z) :
  code <> 1 -> code <> 2 -> code <> 3 -> RESPONSE_TYPES code = Raise KeyError.
Proof.
  intros H1 H2 H3. unfold RESPONSE_TYPES.
  destruct (Z.eqb_spec code 1); [contradiction|].
  destruct (Z.eqb_spec code 2); [contradiction|].
  destruct (Z.eqb_spec code 3); [contradiction|].
  reflexivity.
Qed.

Lemma main_loop_app (utcoffset : Z) (pre post : list raw) (st : state) :
  main_loop utcoffset st (pre ++ post)
  = rbind (main_loop utcoffset st pre) (fun st' => main_loop utcoffset st' post).
Proof.
  revert st. induction pre as [|x pre IH]; intros st; simpl.
  - reflexivity.
  - destruct (process_record utcoffset st x) as [e|st1]; simpl; [reflexivity|].
    apply IH.
Qed.

(** C8, as amended.  A record whose response_type code is outside
    {1, 2, 3} raises a KeyError outside every [try] block: the loop stops
    at that record, no run over a list containing it completes, and so
    nothing is counted as skipped and nothing is written. *)
Theorem unknown_response_type_aborts_run (utcoffset : Z) (record : raw)
    (v : json) (code : Z) (pre post : list raw) :
  r_response_type record = Some v ->
  Py.int v = Ok code ->
  code <> 1 -> code <> 2 -> code <> 3 ->
  (forall st, process_record utcoffset st record = Raise KeyError)
  /\ (forall st, main utcoffset (pre ++ record :: post) <> Ok st).
Proof.
  intros Hv Hcode H1 H2 H3.
  assert (Hstep : forall st, process_record utcoffset st record = Raise KeyError).
  { intros st. unfold process_record, build_record.
    destruct (r_participant_id record) as [pid|]; simpl; [|reflexivity].
    rewrite Hv. simpl. rewrite Hcode. simpl.
    rewrite (unknown_code_raises code H1 H2 H3). reflexivity. }
  split; [exact Hstep|].
  intros st. unfold main. rewrite main_loop_app.
  destruct (main_loop utcoffset initial pre) as [e|st1]; simpl; [discriminate|].
  rewrite Hstep. discriminate.
Qed.

Lemma unknown_response_type_aborts_run_witness :
  (forall st, process_record 0 st (Sample.response "P" 4 "steps") = Raise KeyError)
  /\ (forall st, main 0 ([Sample.response "P" 3 "steps"]
                         ++ Sample.response "P" 4 "steps"
                         :: [Sample.response "Q" 3 "steps"]) <> Ok st).
Proof.
  apply (unknown_response_type_aborts_run 0 (Sample.response "P" 4 "steps")
           (JInt 4) 4); [reflexivity | reflexivity | lia | lia | lia].
Defined.

(** The run over a record of type 4 followed by a good one stops at the
    first: neither is skipped, neither is appended. *)
(** C8 as stated fails. *)
Lemma unknown_response_type_not_skipped :
  main 0 [Sample.response "P" 4 "steps"; Sample.response "Q" 3 "steps"]
  = Raise KeyError.
Proof. reflexivity. Qed.

(** ** A failed [study] is counted and nothing else *)

Lemma failed_study_build (utcoffset : Z) (record : raw) (e : exn)
    (old : var json) :
  r_study record = Some (Raise e) ->
  build_record utcoffset record old
  = rbind (build_record utcoffset (without_study record) old)
          (fun '(pid, parsed_record, s, m) => Ok (pid, parsed_record, s + 1, m)).
Proof.
  destruct record as [id pid rt created sd md dt]. cbn [r_study]. intros ->.
  set (R := mkRaw id pid rt created (Some (Raise e)) md dt).
  unfold build_record.
  change (r_participant_id (without_study R)) with (r_participant_id R).
  change (r_response_type (without_study R)) with (r_response_type R).
  change (r_id (without_study R)) with (r_id R).
  change (r_created_at (without_study R)) with (r_created_at R).
  change (metadata_block (without_study R)) with (metadata_block R).
  change (metadata_after (without_study R)) with (metadata_after R).
  change (data_block utcoffset (without_study R)) with (data_block utcoffset R).
  destruct (field (r_participant_id R)) as [?|p]; [reflexivity|]. cbn [rbind].
  destruct (rbind (field (r_response_type R)) Py.int) as [?|code];
    [reflexivity|]. cbn [rbind].
  destruct (RESPONSE_TYPES code) as [?|rtype]; [reflexivity|]. cbn [rbind].
  destruct (field (r_id R)) as [?|i]; [reflexivity|]. cbn [rbind].
  match goal with
  | |- context [guarded (study_block R) ?x] =>
      change (guarded (study_block R) x) with (x, 1);
      change (guarded (study_block (without_study R)) x) with (x, 0)
  end.
  cbv beta iota.
  destruct (guarded (metadata_block R) _) as [r2 s2].
  destruct (field (r_created_at R)) as [?|c]; [reflexivity|]. cbn [rbind].
  destruct (guarded _ _) as [r3 s3]. cbn [rbind Ok].
  do 2 f_equal. f_equal. lia.
Qed.

Lemma failed_study_is_only_counted (utcoffset : Z) (st : state) (record : raw)
    (e : exn) :
  r_study record = Some (Raise e) ->
  process_record utcoffset st record
  = rbind (process_record utcoffset st (without_study record))
          (fun st' => Ok (count_skipped 1 st')).
Proof.
  intros Hs. unfold process_record.
  rewrite (failed_study_build utcoffset record e _ Hs).
  destruct (build_record utcoffset (without_study record) (metadata st))
    as [?|[[[pid r] s] m]]; [reflexivity|]. cbn [rbind Ok].
  destruct (file_key_of r) as [?|fk]; [reflexivity|]. cbn [rbind Ok].
  unfold count_skipped. cbn. do 2 f_equal. lia.
Qed.

(** ** No [metadata], no [activity] *)

Lemma study_block_no_activity (record : raw) (r r' : prec) (s : Z) :
  Rec.get (JStr "activity") r = None ->
  guarded (study_block record) r = (r', s) ->
  Rec.get (JStr "activity") r' = None.
Proof.
  intros Hr. unfold guarded, study_block.
  destruct (r_study record) as [[e|study]|]; unfold bind, lift, ret, put; simpl.
  - intros H. injection H as <- _. exact Hr.
  - destruct (Py.getitem study "short_name") as [?|v1]; simpl.
    + intros H. injection H as <- _. exact Hr.
    + destruct (Py.getitem study "version") as [?|v2]; simpl;
        intros H; injection H as <- _;
        repeat (rewrite get_set; simpl); exact Hr.
  - intros H. injection H as <- _. exact Hr.
Qed.

Lemma no_metadata_no_data_aborts (utcoffset : Z) (st : state) (record : raw) :
  r_metadata record = None -> r_data record = None ->
  exists e, process_record utcoffset st record = Raise e.
Proof.
  intros Hm Hd. unfold process_record, build_record.
  destruct (r_participant_id record) as [pid|]; simpl; [|eauto].
  destruct (rbind (field (r_response_type record)) Py.int) as [?|code];
    simpl; [eauto|].
  destruct (RESPONSE_TYPES code) as [?|rtype]; simpl; [eauto|].
  destruct (r_id record) as [id|]; simpl; [|eauto].
  destruct (guarded (study_block record) _) as [r1 s1] eqn:E1.
  apply study_block_no_activity in E1; [|reflexivity].
  unfold metadata_block, data_block. rewrite Hm, Hd.
  unfold guarded, ret. simpl.
  destruct (r_created_at record) as [created|]; simpl; [|eauto].
  unfold file_key_of. rewrite !get_set. simpl.
  destruct (Rec.get (JStr "response_type") r1) as [c|]; simpl; [|eauto].
  destruct (cell_str c) as [?|a]; simpl; [eauto|].
  rewrite E1. simpl. eauto.
Qed.










(** ** The submission counter *)









Lemma append_cons (c : ascii) (s t : string) :
  String c s +:+ t = String c (s +:+ t).
Proof. reflexivity. Qed.













(** ** The health-sensor normalizer *)





Lemma put_ok (k : string) (v : cell) (r r' : prec) (u : unit) :
  put k v r = (r', Ok u) -> r' = Rec.set (JStr k) v r.
Proof. unfold put. intros H. now injection H as <-. Qed.







(** ** The description pattern *)

Module RegexFacts.
Import Regex.

Lemma adv_0 (st : state) : adv st 0 = st.
Proof. now destruct st. Qed.

Lemma adv_adv (st : state) (n m : nat) :
  (n <= length (rest st))%nat -> adv (adv st n) m = adv st (n + m).
Proof.
  intros Hn. unfold adv. cbn [rest consumed groups]. f_equal.
  - rewrite app_assoc. f_equal. rewrite <- rev_app_distr. f_equal.
    rewrite <- (firstn_skipn n (rest st)) at 3.
    rewrite firstn_app, length_firstn, Nat.min_l by exact Hn.
    replace (n + m - n)%nat with m by lia.
    rewrite firstn_firstn. replace (Init.Nat.min (n + m) n) with n by lia.
    reflexivity.
  - rewrite skipn_skipn. f_equal. lia.
Qed.

Lemma adv_1 (st : state) (c : ascii) (r : list ascii) :
  rest st = c :: r -> adv st 1 = mk (c :: consumed st) r (groups st).
Proof. intros H. unfold adv. rewrite H. reflexivity. Qed.

Lemma rev_seq_S (a n : nat) :
  rev (seq a (S n)) = (a + n)%nat :: rev (seq a n).
Proof. rewrite seq_S, rev_app_distr. reflexivity. Qed.

Lemma step_char_eq (ok : ascii -> bool) (st : state) :
  step_char ok st
  = match rest st with
    | c :: r => if ok c then [mk (c :: consumed st) r (groups st)] else []
    | [] => []
    end.
Proof. reflexivity. Qed.

(** A starred character class: every prefix length, longest first. *)
Lemma star_class (ok : ascii -> bool) (fuel : nat) :
  forall st : state,
    (length (rest st) <= fuel)%nat ->
    star fuel (step_char ok) st
    = map (adv st) (rev (seq 0 (S (span ok (rest st))))).
Proof.
  induction fuel as [|fuel IH]; intros st Hf.
  - destruct (rest st) eqn:E.
    + cbn [star span seq rev app map]. rewrite adv_0; reflexivity.
    + exfalso. cbn in Hf. lia.
  - cbn [star]. rewrite (step_char_eq ok st).
    destruct (rest st) as [|c r] eqn:E.
    { cbn. rewrite adv_0; reflexivity. }
    cbn [span]. destruct (ok c) eqn:Ec.
    + cbn [flat_map rest length].
      replace (length r <? S (length r))%nat with true
        by (symmetry; apply Nat.ltb_lt; lia).
      rewrite app_nil_r.
      rewrite IH by (cbn [rest]; cbn in Hf; lia). cbn [rest].
      set (n := span ok r).
      change (seq 0 (S (S n))) with (0%nat :: seq 1 (S n)).
      cbn [rev]. rewrite List.map_app. cbn [map]. rewrite adv_0. f_equal.
      rewrite <- List.seq_shift, <- List.map_rev, List.map_map.
      apply List.map_ext. intros k.
      rewrite <- (adv_1 st c r E).
      rewrite adv_adv by (rewrite E; cbn; lia). reflexivity.
    + cbn. rewrite adv_0; reflexivity.
Qed.

(** One or more characters of a class: every prefix length from the
    longest down to one. *)
Lemma plus_class (ok : ascii -> bool) (st : state) :
  flat_map (star (length (rest st)) (step_char ok)) (step_char ok st)
  = map (adv st) (rev (seq 1 (span ok (rest st)))).
Proof.
  rewrite (step_char_eq ok st). destruct (rest st) as [|c r] eqn:E.
  { reflexivity. }
  cbn [span]. destruct (ok c); [|reflexivity].
  cbn [flat_map]. rewrite List.app_nil_r.
  rewrite star_class by (cbn; lia). cbn [rest].
  rewrite <- List.seq_shift, <- List.map_rev, List.map_map.
  apply List.map_ext. intros k.
  rewrite <- (adv_1 st c r E).
  rewrite adv_adv by (rewrite E; cbn; lia). reflexivity.
Qed.

Lemma run_plus_any (st : state) :
  run (Plus Any) st = map (adv st) (rev (seq 1 (span not_newline (rest st)))).
Proof. apply (plus_class not_newline). Qed.

Lemma run_plus_digit (st : state) :
  run (Plus Digit) st
  = map (adv st) (rev (seq 1 (span Text.is_digit (rest st)))).
Proof. apply (plus_class Text.is_digit). Qed.

Lemma run_star_space (st : state) :
  run (Star Space) st
  = map (adv st) (rev (seq 0 (S (span Text.is_space (rest st))))).
Proof. apply (star_class Text.is_space). lia. Qed.

(** The first success of a search over prefix lengths is at the longest
    length that succeeds. *)
Lemma first_success (F : state -> list state) (st : state) (p N : nat) :
  (1 <= p <= N)%nat ->
  (forall n, (p < n <= N)%nat -> F (adv st n) = []) ->
  flat_map F (map (adv st) (rev (seq 1 N)))
  = F (adv st p) ++ flat_map F (map (adv st) (rev (seq 1 (p - 1)))).
Proof.
  induction N as [|N IH]; intros Hp Hfail; [lia|].
  rewrite rev_seq_S. cbn [map flat_map Nat.add].
  destruct (Nat.eq_dec p (S N)) as [->|Hne].
  - replace (S N - 1)%nat with N by lia. reflexivity.
  - rewrite Hfail by lia. cbn [app]. apply IH; [lia|].
    intros n Hn. apply Hfail. lia.
Qed.

Lemma flat_map_nil {A B} (f : A -> list B) (l : list A) :
  (forall x, In x l -> f x = []) -> flat_map f l = [].
Proof.
  induction l as [|x l IH]; intros H; [reflexivity|].
  cbn [flat_map]. rewrite (H x) by (left; reflexivity).
  apply IH. intros y Hy. apply H. now right.
Qed.

(** A literal word, letter case ignored. *)
Lemma lit_spec (w : list ascii) :
  forall st : state,
    lit w st
    = if Colors.starts_ci w (rest st) then [adv st (length w)] else [].
Proof.
  induction w as [|a w IH]; intros st.
  - cbn. rewrite adv_0; reflexivity.
  - cbn [lit Colors.starts_ci length]. rewrite step_char_eq.
    destruct (rest st) as [|c r] eqn:E; [reflexivity|].
    destruct (Ascii.eqb (Text.lower_char c) (Text.lower_char a));
      [|reflexivity].
    cbn [flat_map andb]. rewrite List.app_nil_r, IH. cbn [rest].
    destruct (Colors.starts_ci w r); [|reflexivity].
    rewrite <- (adv_1 st c r E).
    rewrite adv_adv by (rewrite E; cbn; lia). reflexivity.
Qed.

(** Two words that differ in their first letter do not start the same
    text. *)
Lemma starts_ci_exclusive (a b : ascii) (w1 w2 s : list ascii) :
  Ascii.eqb (Text.lower_char a) (Text.lower_char b) = false ->
  Colors.starts_ci (a :: w1) s = true ->
  Colors.starts_ci (b :: w2) s = false.
Proof.
  intros Hab. destruct s as [|c s]; [discriminate|].
  cbn [Colors.starts_ci]. intros H. apply andb_prop in H as [H _].
  apply Ascii.eqb_eq in H. rewrite H, Hab. reflexivity.
Qed.

Ltac other_word H w :=
  let E := fresh in
  assert (E : Colors.starts_ci (Text.chars w) _ = false)
    by (change (Text.chars w) with (list_ascii_of_string w);
        cbn [list_ascii_of_string];
        eapply starts_ci_exclusive; [|exact H]; reflexivity);
  rewrite E; clear E.

Lemma run_color (st : state) :
  run color st
  = match Colors.word_at (rest st) with
    | Some n => [adv st n]
    | None => []
    end.
Proof.
  unfold color. cbn [run]. rewrite !lit_spec.
  unfold Colors.word_at, Colors.words. cbn [find].
  destruct (Colors.starts_ci (Text.chars "Green") (rest st)) eqn:Eg.
  { other_word Eg "Red". other_word Eg "Yellow". other_word Eg "Blue".
    reflexivity. }
  destruct (Colors.starts_ci (Text.chars "Red") (rest st)) eqn:Er.
  { other_word Er "Yellow". other_word Er "Blue". reflexivity. }
  destruct (Colors.starts_ci (Text.chars "Yellow") (rest st)) eqn:Ey.
  { other_word Ey "Blue". reflexivity. }
  destruct (Colors.starts_ci (Text.chars "Blue") (rest st)); reflexivity.
Qed.

Lemma starts_app {A} (l1 l2 : list A) (y : A) :
  starts l1 y -> starts (l1 ++ l2) y.
Proof. intros [l' ->]. now exists (l' ++ l2). Qed.

Lemma starts_flat_map {A B} (f : A -> list B) (l : list A) (x : A) (y : B) :
  starts l x -> starts (f x) y -> starts (flat_map f l) y.
Proof. intros [l' ->] H. cbn [flat_map]. now apply starts_app. Qed.

Lemma starts_map {A B} (g : A -> B) (l : list A) (x : A) :
  starts l x -> starts (map g l) (g x).
Proof. intros [l' ->]. now exists (map g l'). Qed.

Lemma starts_rev_seq (a n : nat) :
  starts (rev (seq a (S n))) (a + n)%nat.
Proof. rewrite rev_seq_S. now eexists. Qed.

Lemma span_all (ok : ascii -> bool) (l1 l2 : list ascii) :
  forallb ok l1 = true -> span ok (l1 ++ l2) = (length l1 + span ok l2)%nat.
Proof.
  induction l1 as [|c l1 IH]; intros H; [reflexivity|].
  cbn [forallb] in H. apply andb_prop in H as [Hc H].
  cbn [app span length]. rewrite Hc, IH by exact H. reflexivity.
Qed.

Lemma skipn_app_plus {A} (l1 l2 : list A) (k : nat) :
  skipn (length l1 + k) (l1 ++ l2) = skipn k l2.
Proof.
  induction l1 as [|x l1 IH]; [reflexivity|]. cbn. exact IH.
Qed.

Lemma firstn_app_exact {A} (l1 l2 : list A) :
  firstn (length l1) (l1 ++ l2) = l1.
Proof.
  induction l1 as [|x l1 IH]; [reflexivity|]. cbn. now f_equal.
Qed.

Lemma captured_adv (st : state) (k : nat) :
  (k <= length (rest st))%nat -> captured st (adv st k) = firstn k (rest st).
Proof.
  intros Hk. unfold captured, adv. cbn [consumed].
  rewrite length_app, length_rev, length_firstn, Nat.min_l by exact Hk.
  replace (k + length (consumed st) - length (consumed st))%nat with k by lia.
  assert (Hl : length (rev (firstn k (rest st))) = k)
    by (rewrite length_rev, length_firstn; lia).
  rewrite List.firstn_app, Hl, Nat.sub_diag. cbn [firstn].
  rewrite List.app_nil_r, List.firstn_all2 by lia.
  apply rev_involutive.
Qed.

Lemma digit_is_not_space (c : ascii) :
  Text.is_digit c = true -> Text.is_space c = false.
Proof.
  unfold Text.is_digit, Text.is_space. set (n := nat_of_ascii c). intros H.
  apply andb_prop in H as [H1 H2].
  apply Nat.leb_le in H1. apply Nat.leb_le in H2.
  destruct (Nat.eqb_spec n 32), (Nat.leb_spec 9 n), (Nat.leb_spec n 13),
    (Nat.leb_spec 28 n), (Nat.leb_spec n 31); cbn; try reflexivity; lia.
Qed.

Lemma digit_is_not_newline (c : ascii) :
  Text.is_digit c = true -> not_newline c = true.
Proof.
  unfold not_newline. intros H.
  destruct (Ascii.eqb_spec c Text.newline) as [->|]; [discriminate|reflexivity].
Qed.

Lemma pattern_cut : pattern = (Begin · Plus Any · tail1)%re.
Proof. reflexivity. Qed.

Lemma rest_adv (st : state) (n : nat) : rest (adv st n) = skipn n (rest st).
Proof. reflexivity. Qed.

Lemma groups_adv (st : state) (n : nat) : groups (adv st n) = groups st.
Proof. reflexivity. Qed.

Lemma no_space_in_digits (num : list ascii) (j : nat) (st : state) :
  forallb Text.is_digit num = true ->
  rest st = skipn j num ->
  step_char Text.is_space st = [].
Proof.
  intros Hd Hr. rewrite step_char_eq, Hr.
  destruct (skipn j num) as [|d l] eqn:E; [reflexivity|].
  assert (Hin : In d num).
  { rewrite <- (firstn_skipn j num), E. apply in_or_app. right. now left. }
  rewrite forallb_forall in Hd.
  rewrite (digit_is_not_space d (Hd d Hin)). reflexivity.
Qed.

(** [.+\s(\d+)\s*$] on [post], a white-space character and a number:
    the first success has read everything and captured the number. *)
Lemma run_tail3 (st : state) (post num : list ascii) (sp : ascii) :
  rest st = post ++ sp :: num ->
  post <> [] -> forallb not_newline post = true ->
  Text.is_space sp = true ->
  num <> [] -> forallb Text.is_digit num = true ->
  exists st', starts (run tail3 st) st' /\ groups st' = (3%nat, num) :: groups st.
Proof.
  intros Hrest Hpost Hnl Hsp Hnum Hdig.
  change (run tail3 st)
    with (flat_map (run (Space · after_space)%re) (run (Plus Any) st)).
  rewrite run_plus_any.
  assert (HN : (length post <= span not_newline (rest st))%nat).
  { rewrite Hrest, span_all by exact Hnl. lia. }
  assert (Hp : (1 <= length post)%nat).
  { destruct post; [contradiction|cbn; lia]. }
  rewrite (first_success _ st (length post)); [|lia|].
  - set (stp := adv st (length post)).
    assert (Hstp : rest stp = sp :: num).
    { subst stp. rewrite rest_adv, Hrest.
      rewrite <- (Nat.add_0_r (length post)). now rewrite skipn_app_plus. }
    change (run (Space · after_space)%re stp)
      with (flat_map (run after_space) (step_char Text.is_space stp)).
    rewrite step_char_eq, Hstp, Hsp. cbn [flat_map].
    set (sts := mk (sp :: consumed stp) num (groups stp)).
    change (run after_space sts)
      with (flat_map (run (Star Space · End_)%re)
              (map (set_group 3 sts) (run (Plus Digit) sts))).
    rewrite run_plus_digit. change (rest sts) with num.
    assert (Hspan : span Text.is_digit num = length num).
    { rewrite <- (app_nil_r num) at 1. rewrite span_all by exact Hdig.
      cbn. lia. }
    rewrite Hspan.
    destruct (length num) as [|m] eqn:Em.
    { destruct num; [contradiction|discriminate]. }
    set (std := set_group 3 sts (adv sts (1 + m))).
    assert (Hstd : rest std = []).
    { subst std. cbn [set_group rest adv]. subst sts. cbn [rest].
      apply skipn_all2. cbn. lia. }
    exists std. split.
    + do 2 apply starts_app.
      eapply starts_flat_map.
      { apply starts_map, starts_map, starts_rev_seq. }
      fold std.
      change (run (Star Space · End_)%re std)
        with (flat_map (run End_) (run (Star Space) std)).
      rewrite run_star_space, Hstd. cbn [span seq rev app map flat_map].
      rewrite adv_0. cbn [run]. rewrite Hstd. now eexists.
    + subst std. cbn [set_group groups]. rewrite captured_adv.
      * subst sts. cbn [rest groups adv]. subst stp. cbn [groups adv].
        do 2 f_equal. apply List.firstn_all2. lia.
      * subst sts. cbn [rest]. lia.
  - intros n Hn.
    change (run (Space · after_space)%re (adv st n))
      with (flat_map (run after_space) (step_char Text.is_space (adv st n))).
    set (j := (n - length post - 1)%nat).
    rewrite (no_space_in_digits num j _ Hdig); [reflexivity|].
    rewrite rest_adv, Hrest.
    replace n with (length post + S j)%nat by (subst j; lia).
    rewrite skipn_app_plus. reflexivity.
Qed.

Lemma run_group_color (g : nat) (K : regex) (st : state) :
  run (Group g color · K)%re st
  = match Colors.word_at (rest st) with
    | Some n => run K (set_group g st (adv st n))
    | None => []
    end.
Proof.
  change (run (Group g color · K)%re st)
    with (flat_map (run K) (map (set_group g st) (run color st))).
  rewrite run_color. destruct (Colors.word_at (rest st)); [|reflexivity].
  cbn [map flat_map]. apply List.app_nil_r.
Qed.

(** [.+(colour)K]: when no colour word further right leads to a match,
    the group is the colour word at the end of [mid]. *)
Lemma group_search (g : nat) (K : regex) (st : state)
    (mid word after : list ascii) (y : state) :
  rest st = mid ++ word ++ after ->
  mid <> [] -> forallb not_newline mid = true ->
  Colors.word_at (word ++ after) = Some (length word) ->
  (forall n, (length mid < n)%nat ->
             run (Group g color · K)%re (adv st n) = []) ->
  starts (run K (set_group g (adv st (length mid))
                   (adv (adv st (length mid)) (length word)))) y ->
  starts (run (Plus Any · Group g color · K)%re st) y.
Proof.
  intros Hrest Hmid Hnl Hword Hfail Hy.
  change (run (Plus Any · Group g color · K)%re st)
    with (flat_map (run (Group g color · K)%re) (run (Plus Any) st)).
  rewrite run_plus_any.
  assert (HN : (length mid <= span not_newline (rest st))%nat).
  { rewrite Hrest, span_all by exact Hnl. lia. }
  assert (Hp : (1 <= length mid)%nat).
  { destruct mid; [contradiction|cbn; lia]. }
  rewrite (first_success _ st (length mid)); [|lia|].
  - assert (Hr : rest (adv st (length mid)) = word ++ after).
    { rewrite rest_adv, Hrest.
      replace (length mid) with (length mid + 0)%nat by lia.
      now rewrite skipn_app_plus. }
    apply starts_app. rewrite run_group_color, Hr, Hword. exact Hy.
  - intros n Hn. apply Hfail. lia.
Qed.

Lemma starts_ci_app (w s t : list ascii) :
  Colors.starts_ci w s = true -> Colors.starts_ci w (s ++ t) = true.
Proof.
  revert s. induction w as [|a w IH]; intros [|c s] H;
    try reflexivity; try discriminate.
  cbn [Colors.starts_ci app] in *. apply andb_prop in H as [H1 H2].
  rewrite H1, (IH s H2). reflexivity.
Qed.

Ltac this_word H w t :=
  let E := fresh in
  pose proof (starts_ci_app _ _ t H) as E;
  repeat match goal with
         | |- context [Colors.starts_ci (Text.chars ?w') (_ ++ t)] =>
             lazymatch w' with
             | w => fail
             | _ => other_word E w'
             end
         end;
  rewrite E; clear E.

(** A colour word is still found when text follows it. *)
Lemma word_at_app (s t : list ascii) (n : nat) :
  Colors.word_at s = Some n -> Colors.word_at (s ++ t) = Some n.
Proof.
  unfold Colors.word_at, Colors.words. cbn [find].
  destruct (Colors.starts_ci (Text.chars "Green") s) eqn:Eg.
  { intros H. this_word Eg "Green" t. exact H. }
  destruct (Colors.starts_ci (Text.chars "Red") s) eqn:Er.
  { intros H. this_word Er "Red" t. exact H. }
  destruct (Colors.starts_ci (Text.chars "Yellow") s) eqn:Ey.
  { intros H. this_word Ey "Yellow" t. exact H. }
  destruct (Colors.starts_ci (Text.chars "Blue") s) eqn:Eb.
  { intros H. this_word Eb "Blue" t. exact H. }
  discriminate.
Qed.

Lemma is_word_at (c t : list ascii) :
  Colors.is_word c = true -> Colors.word_at (c ++ t) = Some (length c).
Proof.
  unfold Colors.is_word. destruct (Colors.word_at c) as [n|] eqn:E;
    [|discriminate].
  intros H. apply Nat.eqb_eq in H. subst n. now apply word_at_app.
Qed.

Lemma word_at_nil : Colors.word_at [] = None.
Proof. reflexivity. Qed.

(** The colour words of [s] start where [Colors.positions] says. *)
Lemma word_at_position (s : list ascii) (k n : nat) :
  Colors.word_at (skipn k s) = Some n -> In k (Colors.positions s).
Proof.
  intros H. unfold Colors.positions. apply filter_In. split.
  - apply in_seq. split; [lia|]. cbn.
    destruct (Nat.lt_ge_cases k (length s)) as [Hlt|Hge]; [exact Hlt|].
    rewrite List.skipn_all2 in H by exact Hge. discriminate.
  - now rewrite H.
Qed.

Lemma nonempty {A} (l : list A) : (0 < length l)%nat -> l <> [].
Proof. destruct l; cbn; [lia|discriminate]. Qed.

(** The pattern on [pre c1 mid c2 post], a white-space character and a
    number, [c1] and [c2] being the last two colour words. *)
Lemma pattern_last_two_colours (pre c1 mid c2 post num : list ascii)
    (sp : ascii) :
  (0 < length pre)%nat -> (0 < length mid)%nat -> (0 < length post)%nat ->
  (0 < length num)%nat ->
  forallb not_newline (pre ++ c1 ++ mid ++ c2 ++ post) = true ->
  Colors.is_word c1 = true -> Colors.is_word c2 = true ->
  Text.is_space sp = true -> forallb Text.is_digit num = true ->
  Colors.positions (c1 ++ mid ++ c2 ++ post ++ sp :: num)
  = [0%nat; (length c1 + length mid)%nat] ->
  exists g,
    match_ pattern (Text.text (pre ++ c1 ++ mid ++ c2 ++ post ++ sp :: num))
    = Some g
    /\ group 1 g = Text.text c1 /\ group 2 g = Text.text c2
    /\ group 3 g = Text.text num.
Proof.
  intros Hpre Hmid Hpost Hnum Hnl Hc1 Hc2 Hsp Hdig Hpos.
  apply nonempty in Hpre, Hmid, Hpost, Hnum.
  rewrite !forallb_app in Hnl.
  apply andb_prop in Hnl as [Hnl_pre Hnl].
  apply andb_prop in Hnl as [_ Hnl].
  apply andb_prop in Hnl as [Hnl_mid Hnl].
  apply andb_prop in Hnl as [_ Hnl_post].
  set (X4 := post ++ sp :: num) in *.
  set (X1 := c1 ++ mid ++ c2 ++ X4) in *.
  assert (Hother : forall k n, Colors.word_at (skipn k X1) = Some n ->
                               k = 0%nat \/ k = (length c1 + length mid)%nat).
  { intros k n H. apply word_at_position in H. rewrite Hpos in H.
    destruct H as [<-|[<-|[]]]; auto. }
  assert (Hnone : forall k, (0 < k)%nat -> k <> (length c1 + length mid)%nat ->
                            Colors.word_at (skipn k X1) = None).
  { intros k Hk Hne. destruct (Colors.word_at (skipn k X1)) as [n|] eqn:E;
      [|reflexivity].
    destruct (Hother k n E); lia. }
  assert (Hskip2 : forall j, skipn (length c1 + length mid + j) X1
                             = skipn j (c2 ++ X4)).
  { intros j. subst X1. rewrite <- Nat.add_assoc.
    now rewrite !skipn_app_plus. }
  assert (Hskip4 : forall j, skipn (length c1 + length mid + length c2 + j) X1
                             = skipn j X4).
  { intros j. rewrite <- Nat.add_assoc, Hskip2. apply skipn_app_plus. }
  set (st0 := mk [] (pre ++ X1) []).
  assert (Hgoal : exists y, starts (run pattern st0) y
                            /\ groups y = [(3%nat, num); (2%nat, c2); (1%nat, c1)]).
  { rewrite pattern_cut.
    change (run (Begin · Plus Any · tail1)%re st0)
      with (run (Plus Any · tail1)%re st0 ++ []).
    set (stp := adv st0 (length pre)).
    set (st1 := set_group 1 stp (adv stp (length c1))).
    assert (Hstp : rest stp = X1).
    { subst stp. rewrite rest_adv. cbn [rest st0].
      replace (length pre) with (length pre + 0)%nat by lia.
      now rewrite skipn_app_plus. }
    assert (Hst1 : rest st1 = mid ++ c2 ++ X4).
    { subst st1. cbn [set_group rest]. rewrite rest_adv, Hstp. subst X1.
      replace (length c1) with (length c1 + 0)%nat by lia.
      now rewrite skipn_app_plus. }
    assert (Hg1 : groups st1 = [(1%nat, c1)]).
    { subst st1. cbn [set_group groups]. rewrite captured_adv.
      - rewrite Hstp. subst X1. now rewrite firstn_app_exact.
      - rewrite Hstp. subst X1. rewrite length_app. lia. }
    set (stq := adv st1 (length mid)).
    set (st2 := set_group 2 stq (adv stq (length c2))).
    assert (Hstq : rest stq = c2 ++ X4).
    { subst stq. rewrite rest_adv, Hst1.
      replace (length mid) with (length mid + 0)%nat by lia.
      now rewrite skipn_app_plus. }
    assert (Hst2 : rest st2 = X4).
    { subst st2. cbn [set_group rest]. rewrite rest_adv, Hstq.
      replace (length c2) with (length c2 + 0)%nat by lia.
      now rewrite skipn_app_plus. }
    assert (Hg2 : groups st2 = [(2%nat, c2); (1%nat, c1)]).
    { subst st2. cbn [set_group groups]. rewrite captured_adv.
      - rewrite Hstq, firstn_app_exact. subst stq.
        now rewrite !groups_adv, Hg1.
      - rewrite Hstq, length_app. lia. }
    destruct (run_tail3 st2 post num sp Hst2 Hpost Hnl_post Hsp Hnum Hdig)
      as (y & Hy & Hgy).
    exists y. split; [|now rewrite Hgy, Hg2].
    apply starts_app.
    apply (group_search 1 tail2 st0 pre c1 (mid ++ c2 ++ X4) y);
      [reflexivity | exact Hpre | exact Hnl_pre | now apply is_word_at | |].
    - (* further right, group 1 can only be [c2], and nothing follows it *)
      intros n Hn. rewrite run_group_color, rest_adv. cbn [rest st0].
      replace n with (length pre + (n - length pre))%nat by lia.
      rewrite skipn_app_plus.
      destruct (Colors.word_at (skipn (n - length pre) X1)) as [m|] eqn:E;
        [|reflexivity].
      destruct (Hother _ _ E) as [H0|Hk]; [lia|].
      set (stn := adv st0 (length pre + (n - length pre))) in *.
      assert (Hstn : rest stn = c2 ++ X4).
      { subst stn. rewrite rest_adv. cbn [rest st0].
        rewrite skipn_app_plus, Hk.
        replace (length c1 + length mid)%nat
          with (length c1 + length mid + 0)%nat by lia.
        now rewrite Hskip2. }
      assert (Hm : m = length c2).
      { rewrite Hk in E.
        replace (length c1 + length mid)%nat
          with (length c1 + length mid + 0)%nat in E by lia.
        rewrite Hskip2 in E. rewrite List.skipn_O in E.
        rewrite (is_word_at c2 X4 Hc2) in E. now injection E. }
      subst m.
      change (run tail2 (set_group 1 stn (adv stn (length c2))))
        with (flat_map (run (Group 2 color · tail3)%re)
                (run (Plus Any) (set_group 1 stn (adv stn (length c2))))).
      rewrite run_plus_any. apply flat_map_nil. intros x Hx.
      apply in_map_iff in Hx as (j & <- & Hj).
      apply in_rev, in_seq in Hj.
      rewrite run_group_color, rest_adv. cbn [set_group rest].
      rewrite rest_adv, Hstn.
      replace (length c2) with (length c2 + 0)%nat by lia.
      rewrite skipn_app_plus, List.skipn_O.
      rewrite <- Hskip4, Hnone by lia. reflexivity.
    - fold stp. fold st1.
      apply (group_search 2 tail3 st1 mid c2 X4 y);
        [exact Hst1 | exact Hmid | exact Hnl_mid | now apply is_word_at | |].
      + intros n Hn. rewrite run_group_color, rest_adv, Hst1.
        replace (skipn n (mid ++ c2 ++ X4)) with (skipn (length c1 + n) X1)
          by (subst X1; apply skipn_app_plus).
        rewrite Hnone by lia. reflexivity.
      + fold stq. fold st2. exact Hy. }
  destruct Hgoal as (y & [l Hl] & Hg).
  exists (groups y). unfold match_, Text.chars, Text.text.
  rewrite list_ascii_of_string_of_list_ascii. fold st0. rewrite Hl.
  split; [reflexivity|]. rewrite Hg. repeat split.
Qed.
End RegexFacts.


Lemma eqb_append_l (a b c : string) :
  String.eqb (a +:+ b) (a +:+ c) = String.eqb b c.
Proof.
  induction a as [|x a IH]; [reflexivity|].
  rewrite !append_cons. cbn [String.eqb]. now rewrite Ascii.eqb_refl.
Qed.

Lemma inter_eqb (i : Z) (s t : string) :
  String.eqb (inter i s) (inter i t) = String.eqb s t.
Proof. unfold inter. now rewrite !eqb_append_l. Qed.

(** C3, as amended.  For a description made of a non-empty prefix, a
    colour word c1, a non-empty middle, a colour word c2, a non-empty
    rest, one white-space character and a number, with no line break
    before the white space and no colour word after c1 other than c2, the
    slot's Color is c1 (the second-to-last colour word before the number)
    and its Spelling is c2 (the last one), in the letter case of the
    description.  At "Say the word GREEN written in Red ink 42": Color
    GREEN, Spelling Red. *)
Theorem stroop_color_is_second_to_last_word (interactions interaction : json)
    (i : Z) (matcher : var (option (list (nat * list ascii)))) (r : prec)
    (time correctness : json) (pre c1 mid c2 post num : list ascii) (sp : ascii) :
  Py.getindex interactions i = Ok interaction ->
  Py.getitem interaction "time" = Ok time ->
  Py.getitem interaction "correctness" = Ok correctness ->
  Py.getitem interaction "description"
  = Ok (JStr (Text.text (pre ++ c1 ++ mid ++ c2 ++ post ++ sp :: num))) ->
  (0 < length pre)%nat -> (0 < length mid)%nat -> (0 < length post)%nat ->
  (0 < length num)%nat ->
  forallb Regex.not_newline (pre ++ c1 ++ mid ++ c2 ++ post) = true ->
  Colors.is_word c1 = true -> Colors.is_word c2 = true ->
  Text.is_space sp = true -> forallb Text.is_digit num = true ->
  Colors.positions (c1 ++ mid ++ c2 ++ post ++ sp :: num)
  = [0%nat; (length c1 + length mid)%nat] ->
  exists r' m,
    stroop_slot interactions i matcher r = (r', Ok m)
    /\ Rec.get (JStr (inter i "_Color")) r' = Some (CStr (Text.text c1))
    /\ Rec.get (JStr (inter i "_Spelling")) r' = Some (CStr (Text.text c2)).
Proof.
  intros Hi Ht Hc Hd Hpre Hmid Hpost Hnum Hnl Hc1 Hc2 Hsp Hdig Hpos.
  destruct (RegexFacts.pattern_last_two_colours pre c1 mid c2 post num sp
              Hpre Hmid Hpost Hnum Hnl Hc1 Hc2 Hsp Hdig Hpos)
    as (g & Hg & Hg1 & Hg2 & _).
  unfold stroop_slot, bind, try_except, lift, ret.
  rewrite Hi. cbn [Ok]. rewrite Ht, Hc, Hd. cbn [Ok pattern_match].
  rewrite Hg. cbn [Ok].
  destruct (Py.truthy time); unfold put; cbn [fst snd];
    (eexists _, _; split; [reflexivity|]);
    rewrite !get_set, ?inter_eqb, Hg1, Hg2; split; reflexivity.
Qed.

Lemma stroop_color_is_second_to_last_word_witness :
  exists r' m,
    stroop_slot (JArr [Sample.trial Sample.say_green_red]) 0 Unbound []
    = (r', Ok m)
    /\ Rec.get (JStr (inter 0 "_Color")) r' = Some (CStr "GREEN")
    /\ Rec.get (JStr (inter 0 "_Spelling")) r' = Some (CStr "Red").
Proof.
  apply (stroop_color_is_second_to_last_word
           (JArr [Sample.trial Sample.say_green_red])
           (Sample.trial Sample.say_green_red) 0 Unbound []
           (JStr "2021-03-17T14:30:05") (JBool true)
           (Text.chars "Say the word ") (Text.chars "GREEN")
           (Text.chars " written in ") (Text.chars "Red")
           (Text.chars " ink") (Text.chars "42") " "%char);
    first [reflexivity | cbn; lia].
Defined.

(** C3 as stated fails: on "Say the word GREEN written in Red ink 42"
    the Color column is GREEN, not Red. *)
Lemma say_green_red_color_is_not_red :
  let r := fst (_process_task_stroop 0
                  (Sample.stroop [Sample.trial Sample.say_green_red]) []) in
  Rec.get (JStr "Inter1_Color") r = Some (CStr "GREEN")
  /\ Rec.get (JStr "Inter1_Spelling") r = Some (CStr "Red")
  /\ Rec.get (JStr "Inter1_Color") r <> Some (CStr "Red").
Proof. vm_compute. repeat split. discriminate. Qed.

(** Colour words that touch, or a last colour word right before the
    number, move the groups to the left. *)
Lemma pattern_needs_separated_words :
  option_map (fun g => (Regex.group 1 g, Regex.group 2 g))
             (Regex.match_ Regex.pattern "x Red Blue Green 7")
  = Some ("Red", "Blue")
  /\ option_map (fun g => (Regex.group 1 g, Regex.group 2 g))
                (Regex.match_ Regex.pattern "a Red BlueGreen b 1")
     = Some ("Red", "Green")
  /\ Regex.match_ Regex.pattern "Red Blue 42" = None.
Proof. vm_compute. repeat split. Qed.


(** ** The date column, in general *)

Module DateFacts.
Import Datetime.

Lemma cycle_checked : forallb year_checked cycle = true.
Proof. vm_compute. reflexivity. Qed.

Lemma days_from_civil_shift (y m d k : Z) :
  days_from_civil (y + 400 * k) m d = days_from_civil y m d + 146097 * k.
Proof.
  unfold days_from_civil.
  set (y' := if m <=? 2 then y - 1 else y).
  replace (if m <=? 2 then y + 400 * k - 1 else y + 400 * k)
    with (y' + k * 400) by (subst y'; destruct (m <=? 2); lia).
  rewrite Z.div_add by lia.
  replace (y' + k * 400 - (y' / 400 + k) * 400) with (y' - y' / 400 * 400)
    by lia.
  lia.
Qed.

Lemma civil_from_days_shift (z k : Z) :
  civil_from_days (z + 146097 * k)
  = let '(y, m, d) := civil_from_days z in (y + 400 * k, m, d).
Proof.
  unfold civil_from_days.
  replace (z + 146097 * k + 719468) with (z + 719468 + k * 146097) by lia.
  rewrite Z.div_add by lia.
  set (era := (z + 719468) / 146097).
  replace (z + 719468 + k * 146097 - (era + k) * 146097)
    with (z + 719468 - era * 146097) by lia.
  set (doe := z + 719468 - era * 146097).
  set (yoe := (doe - doe / 1460 + doe / 36524 - doe / 146096) / 365).
  set (doy := doe - (365 * yoe + yoe / 4 - yoe / 100)).
  set (mp := (5 * doy + 2) / 153).
  destruct ((if mp <? 10 then mp + 3 else mp - 9) <=? 2);
    f_equal; f_equal; lia.
Qed.

Lemma days_in_month_shift (y m k : Z) :
  days_in_month (y + 400 * k) m = days_in_month y m.
Proof.
  unfold days_in_month, is_leap.
  replace (y + 400 * k) with (y + (100 * k) * 4) at 1 by lia.
  replace (y + 400 * k) with (y + (4 * k) * 100) at 1 by lia.
  replace (y + 400 * k) with (y + k * 400) at 1 by lia.
  now rewrite !Z.mod_add by lia.
Qed.

(** The civil date is found again from its day number. *)
Lemma civil_roundtrip (y m d : Z) :
  1 <= m <= 12 -> 1 <= d <= days_in_month y m ->
  civil_from_days (days_from_civil y m d) = (y, m, d).
Proof.
  intros Hm Hd.
  set (k := (y - 2000) / 400). set (y0 := 2000 + (y - 2000) mod 400).
  assert (Hy : y = y0 + 400 * k).
  { subst y0 k. pose proof (Z.div_mod (y - 2000) 400 ltac:(lia)). lia. }
  assert (Hy0 : 2000 <= y0 < 2400).
  { subst y0. pose proof (Z.mod_pos_bound (y - 2000) 400 ltac:(lia)). lia. }
  rewrite Hy in Hd |- *. rewrite days_in_month_shift in Hd.
  rewrite days_from_civil_shift, civil_from_days_shift.
  assert (Hin : In y0 cycle).
  { apply in_map_iff. exists (Z.to_nat (y0 - 2000)). split; [lia|].
    apply in_seq. lia. }
  pose proof (proj1 (forallb_forall year_checked cycle) cycle_checked y0 Hin)
    as Hc.
  unfold year_checked in Hc. rewrite forallb_forall in Hc.
  assert (Hinm : In m (map Z.of_nat (seq 1 12))).
  { apply in_map_iff. exists (Z.to_nat m). split; [lia|].
    apply in_seq. lia. }
  specialize (Hc m Hinm). rewrite forallb_forall in Hc.
  assert (Hind : In d (map Z.of_nat (seq 1 (Z.to_nat (days_in_month y0 m))))).
  { apply in_map_iff. exists (Z.to_nat d). split; [lia|].
    apply in_seq. lia. }
  specialize (Hc d Hind).
  destruct (civil_from_days (days_from_civil y0 m d)) as [[y' m'] d'].
  apply andb_prop in Hc as [Hc Hd']. apply andb_prop in Hc as [Hy' Hm'].
  apply Z.eqb_eq in Hy', Hm', Hd'. subst y' m' d'. reflexivity.
Qed.

(** Truncating the instant [L - o] to its midnight and reading the
    result [o] later falls on the day of [L], or on the day before when
    the time of day of [L] is less than [o]. *)
Lemma midnight_day (L o D : Z) :
  0 < D ->
  (L - o - (L - o) mod D + o) / D
  = L / D - (if L mod D <? o mod D then 1 else 0).
Proof.
  intros HD.
  pose proof (Z.div_mod L D ltac:(lia)) as HL.
  pose proof (Z.mod_pos_bound L D HD) as HLb.
  pose proof (Z.div_mod o D ltac:(lia)) as Ho.
  pose proof (Z.mod_pos_bound o D HD) as Hob.
  pose proof (Z.div_mod (L - o) D ltac:(lia)) as Hd.
  pose proof (Z.mod_pos_bound (L - o) D HD) as Hdb.
  destruct (Z.ltb_spec (L mod D) (o mod D)) as [Hlt|Hge].
  - symmetry. apply (Z.div_unique _ _ _ (o mod D)); [lia|].
    assert ((L - o) / D = L / D - o / D - 1) by nia. nia.
  - symmetry. apply (Z.div_unique _ _ _ (o mod D)); [lia|].
    assert ((L - o) / D = L / D - o / D) by nia. nia.
Qed.

(** *** A parsed value is well formed *)

Lemma digit_val_bounds (c : ascii) :
  Text.is_digit c = true -> 0 <= Text.digit_val c <= 9.
Proof.
  unfold Text.is_digit, Text.digit_val. intros H.
  apply andb_prop in H as [H1 H2].
  apply Nat.leb_le in H1. apply Nat.leb_le in H2. lia.
Qed.

Lemma number_of_bounds (l : list ascii) :
  forallb Text.is_digit l = true ->
  0 <= Text.number_of l < 10 ^ Z.of_nat (length l).
Proof.
  unfold Text.number_of.
  assert (H : forall acc, forallb Text.is_digit l = true -> 0 <= acc ->
              0 <= fold_left (fun a c => 10 * a + Text.digit_val c) l acc
              < (acc + 1) * 10 ^ Z.of_nat (length l)).
  { induction l as [|c l IH]; intros acc Hd Hacc.
    - cbn. lia.
    - cbn [forallb] in Hd. apply andb_prop in Hd as [Hc Hd].
      pose proof (digit_val_bounds c Hc) as Hb.
      cbn [fold_left length]. rewrite Nat2Z.inj_succ, Z.pow_succ_r by lia.
      specialize (IH (10 * acc + Text.digit_val c) Hd ltac:(lia)).
      nia. }
  intros Hd. specialize (H 0 Hd ltac:(lia)). lia.
Qed.

Lemma digits2_bounds (l r : list ascii) (n : Z) :
  digits2 l = Some (n, r) -> 0 <= n.
Proof.
  unfold digits2. destruct l as [|a [|b l]]; try discriminate.
  destruct (Text.is_digit a && Text.is_digit b) eqn:E; [|discriminate].
  intros H. injection H as <- _.
  apply (number_of_bounds [a; b]). cbn. now rewrite andb_true_r.
Qed.

Lemma parse_fraction_bounds (l : list ascii) (us : Z) :
  parse_fraction l = Some us -> 0 <= us < second_us.
Proof.
  unfold parse_fraction, second_us. destruct l as [|c f].
  { intros H. injection H as <-. lia. }
  destruct (Ascii.eqb c "." && forallb Text.is_digit f) eqn:E;
    [|discriminate].
  apply andb_prop in E as [_ Hd].
  pose proof (number_of_bounds f Hd) as Hb.
  destruct (Nat.eqb_spec (length f) 3) as [E3|_].
  { intros H. injection H as <-. rewrite E3 in Hb.
    change (10 ^ Z.of_nat 3) with 1000 in Hb. lia. }
  destruct (Nat.eqb_spec (length f) 6) as [E6|_]; [|discriminate].
  intros H. injection H as <-. rewrite E6 in Hb.
  change (10 ^ Z.of_nat 6) with 1000000 in Hb. lia.
Qed.

Lemma parse_hms_bounds (l : list ascii) (h mi s us : Z) :
  parse_hms l = Some (h, mi, s, us) ->
  0 <= h /\ 0 <= mi /\ 0 <= s /\ 0 <= us < second_us.
Proof.
  unfold parse_hms, second_us.
  destruct (digits2 l) as [[h' r]|] eqn:Eh; [|discriminate]. cbn.
  apply digits2_bounds in Eh.
  destruct r as [|c r].
  { intros H. injection H as <- <- <- <-. lia. }
  destruct (expect ":" (c :: r)) as [r1|]; [|discriminate]. cbn.
  destruct (digits2 r1) as [[mi' r2]|] eqn:Em; [|discriminate]. cbn.
  apply digits2_bounds in Em.
  destruct r2 as [|c2 r2].
  { intros H. injection H as <- <- <- <-. lia. }
  destruct (expect ":" (c2 :: r2)) as [r3|]; [|discriminate]. cbn.
  destruct (digits2 r3) as [[s' r4]|] eqn:Es; [|discriminate]. cbn.
  apply digits2_bounds in Es.
  destruct (parse_fraction r4) as [us'|] eqn:Ef; [|discriminate]. cbn.
  apply parse_fraction_bounds in Ef. unfold second_us in Ef.
  intros H. injection H as <- <- <- <-. lia.
Qed.

Lemma parse_time_bounds (l : list ascii) (h mi s us : Z) (off : option Z) :
  parse_time l = Some (h, mi, s, us, off) ->
  0 <= h /\ 0 <= mi /\ 0 <= s /\ 0 <= us < second_us.
Proof.
  unfold parse_time.
  destruct (match split_tz l "-" with
            | Some (a, b) => Some (true, a, b)
            | None => match split_tz l "+" with
                      | Some (a, b) => Some (false, a, b)
                      | None => None
                      end
            end) as [[[neg a] b]|].
  - destruct (parse_hms a) as [[[[h' mi'] s'] us']|] eqn:E; [|discriminate].
    cbn. destruct (parse_tz neg b); [|discriminate]. cbn.
    intros H. injection H as <- <- <- <- _. now apply parse_hms_bounds in E.
  - destruct (parse_hms l) as [[[[h' mi'] s'] us']|] eqn:E; [|discriminate].
    cbn. intros H. injection H as <- <- <- <- _.
    now apply parse_hms_bounds in E.
Qed.

Lemma parse_well_formed (l : list ascii) (d : t) :
  parse l = Some d -> well_formed d = true.
Proof.
  unfold parse.
  destruct (parse_date l) as [[[[y m] dd] r]|]; [|discriminate]. cbn.
  destruct (match r with
            | [] => Some (0, 0, 0, 0, None)
            | _ :: time => parse_time time
            end) as [[[[[h mi] s] us] off]|] eqn:E; [|discriminate]. cbn.
  destruct (valid (mk y m dd h mi s us off)) eqn:Ev; [|discriminate].
  intros H. injection H as <-.
  assert (Hb : 0 <= h /\ 0 <= mi /\ 0 <= s /\ 0 <= us < second_us).
  { destruct r as [|c time].
    - injection E as <- <- <- <- _. unfold second_us. lia.
    - now apply parse_time_bounds in E. }
  unfold well_formed. rewrite Ev. cbn [hour minute second micro andb].
  destruct Hb as (Hh & Hmi & Hs & Hus1 & Hus2).
  apply Z.leb_le in Hh, Hmi, Hs, Hus1. apply Z.ltb_lt in Hus2.
  now rewrite Hh, Hmi, Hs, Hus1, Hus2.
Qed.

Lemma fromisoformat_well_formed (v : json) (d : t) :
  fromisoformat v = Ok d -> well_formed d = true.
Proof.
  unfold fromisoformat. destruct v; try discriminate.
  destruct (parse (Text.chars s)) as [d'|] eqn:E; [|discriminate].
  intros H. injection H as <-. now apply parse_well_formed in E.
Qed.

Lemma of_civil_us_date (us : Z) (d : t) :
  of_civil_us us = Ok d -> strftime_Ymd d = Ymd_of_days (us / day_us).
Proof.
  unfold of_civil_us, Ymd_of_days, strftime_Ymd.
  destruct (civil_from_days (us / day_us)) as [[y m] dd].
  destruct ((y <? 1) || (9999 <? y)); [discriminate|].
  intros H. injection H as <-. reflexivity.
Qed.

Lemma time_of_day_bounds (d : t) :
  well_formed d = true -> 0 <= time_of_day d < day_us.
Proof.
  unfold well_formed, valid, time_of_day, day_us, second_us. intros H.
  repeat (apply andb_prop in H as [H ?]).
  repeat match goal with
         | H : (_ <=? _) = true |- _ => apply Z.leb_le in H
         | H : (_ <? _) = true |- _ => apply Z.ltb_lt in H
         end.
  lia.
Qed.

Lemma valid_date (d : t) :
  well_formed d = true ->
  1 <= month d <= 12 /\ 1 <= day d <= days_in_month (year d) (month d).
Proof.
  unfold well_formed, valid. intros H.
  repeat (apply andb_prop in H as [H ?]).
  repeat match goal with
         | H : (_ <=? _) = true |- _ => apply Z.leb_le in H
         end.
  lia.
Qed.

Lemma strftime_roundtrip (d : t) :
  well_formed d = true ->
  Ymd_of_days (days_from_civil (year d) (month d) (day d)) = strftime_Ymd d.
Proof.
  intros H. destruct (valid_date d H) as [Hm Hd].
  unfold Ymd_of_days. now rewrite civil_roundtrip.
Qed.

(** The date column for a start without a zone: the day of the start,
    or the day before when the start's time of day is less than the
    offset of the machine (taken modulo one day). *)
Lemma date_as_number_day (utcoffset : Z) (data v : json) (d : t)
    (r r' : prec) :
  path data ["timestamps"; "start"] = Ok v ->
  fromisoformat v = Ok d ->
  tzoffset d = None ->
  _process_timestamps utcoffset data r = (r', Ok tt) ->
  Rec.get (JStr "Date_as_Number") r'
  = Some (CStr (Ymd_of_days
                  (days_from_civil (year d) (month d) (day d)
                   - (if time_of_day d <? (utcoffset * second_us) mod day_us
                      then 1 else 0)))).
Proof.
  intros Hv Hd Hnaive Hrun.
  pose proof (fromisoformat_well_formed v d Hd) as Hwf.
  unfold _process_timestamps in Hrun.
  do 5 (apply bind_ok in Hrun as (? & ? & _ & Hrun);
        apply bind_ok in Hrun as (? & [] & _ & Hrun)).
  apply bind_ok in Hrun as (r1 & v' & Hl & Hrun).
  apply lift_ok in Hl as [-> Hl]. rewrite Hv in Hl. injection Hl as <-.
  apply bind_ok in Hrun as (r1 & d0 & Hl & Hrun).
  apply lift_ok in Hl as [-> Hl]. rewrite Hd in Hl. injection Hl as <-.
  cbv zeta in Hrun.
  apply bind_ok in Hrun as (r1 & d' & Hl & Hrun).
  apply lift_ok in Hl as [-> Hd'].
  apply put_ok in Hrun. subst r'. rewrite get_set, String.eqb_refl.
  do 2 f_equal.
  unfold fromtimestamp in Hd'. apply of_civil_us_date in Hd'. rewrite Hd'.
  f_equal. unfold timestamp. rewrite Hnaive.
  rewrite midnight_day by reflexivity.
  pose proof (time_of_day_bounds d Hwf) as Hb.
  assert (HL : civil_us d
               = days_from_civil (year d) (month d) (day d) * day_us
                 + time_of_day d)
    by (unfold civil_us, time_of_day; ring).
  rewrite HL.
  rewrite Z.div_add_l, Z.div_small, Z.add_0_r by (try exact Hb; discriminate).
  rewrite Z.add_comm, Z.mod_add, Z.mod_small by (try exact Hb; discriminate).
  reflexivity.
Qed.

(** On a machine whose offset is no more than the start's time of day
    (a machine on UTC, for one) the column is the date of the start. *)
Lemma date_as_number_is_start_date (utcoffset : Z) (data v : json) (d : t)
    (r r' : prec) :
  path data ["timestamps"; "start"] = Ok v ->
  fromisoformat v = Ok d ->
  tzoffset d = None ->
  (utcoffset * second_us) mod day_us <= time_of_day d ->
  _process_timestamps utcoffset data r = (r', Ok tt) ->
  Rec.get (JStr "Date_as_Number") r' = Some (CStr (strftime_Ymd d)).
Proof.
  intros Hv Hd Hnaive Hle Hrun.
  pose proof (fromisoformat_well_formed v d Hd) as Hwf.
  rewrite (date_as_number_day utcoffset data v d r r' Hv Hd Hnaive Hrun).
  replace (time_of_day d <? (utcoffset * second_us) mod day_us) with false
    by (symmetry; apply Z.ltb_ge; exact Hle).
  rewrite Z.sub_0_r. now rewrite strftime_roundtrip.
Qed.

(** On a machine on UTC the column is the date of the start, whatever
    the start. *)
Lemma date_as_number_utc (data v : json) (d : t) (r r' : prec) :
  path data ["timestamps"; "start"] = Ok v ->
  fromisoformat v = Ok d ->
  tzoffset d = None ->
  _process_timestamps 0 data r = (r', Ok tt) ->
  Rec.get (JStr "Date_as_Number") r' = Some (CStr (strftime_Ymd d)).
Proof.
  intros Hv Hd Hnaive Hrun.
  apply (date_as_number_is_start_date 0 data v d r r' Hv Hd Hnaive);
    [|exact Hrun].
  pose proof (time_of_day_bounds d (fromisoformat_well_formed v d Hd)).
  change ((0 * second_us) mod day_us) with 0. lia.
Qed.
End DateFacts.

